(** * Cloth Selector: outfit scoring backend and upload front ends

    A shallow embedding of the parts of the repository that the
    specification makes claims about:

    - [Backend]: the Flask application [app.py] (colour extraction, harmony
      classification, scoring, the upload and generate-combinations
      endpoints);
    - [ScriptJs] and [ScriptJsUi]: the global-variable front end
      [script.js], its working set and its mock combinations;
    - [StyleMatcher] and [StyleMatcherUi]: the class-based front end
      [AIStyleMatcher];
    - [ClientJs]: the page [static/js/script.js] that talks to the backend.

    Conventions.  The hues of the harmony classifier and the identifiers
    that the front ends build from [Date.now() + Math.random()] are IEEE 754
    binary64 numbers ([float], with the operations of the processor); the
    score arithmetic (a table entry times a multiplier, a score over 20),
    the cluster centres and the values of [Math.random()] that the front
    ends scale and floor are exact rationals ([Q]), and [int(x)] is
    truncation toward zero.  A Python call that may raise is a value of
    type [py A].  Browser callbacks that fire later (FileReader [onload])
    are explicit entries of a pending queue in the state. *)

From Stdlib Require Import Ascii String ZArith QArith Qround Qabs Qminmax Lqa Lia.
From Stdlib Require Import Floats.
From stdpp Require Import base strings list gmap pretty sorting.

Local Open Scope Z_scope.

(** ** Python results *)

Inductive py (A : Type) : Type :=
| Return (a : A)
| Raise (exn : string).
Arguments Return {A} a.
Arguments Raise {A} exn.

#[global] Instance py_ret : MRet py := fun A a => Return a.
#[global] Instance py_bind : MBind py := fun A B k m =>
  match m with
  | Return a => k a
  | Raise e => Raise e
  end.

(** A comprehension [[f(x) for x in l]] whose body may raise. *)
Fixpoint py_mapM {A B} (f : A -> py B) (l : list A) : py (list B) :=
  match l with
  | [] => Return []
  | a :: l' => b ← f a; bs ← py_mapM f l'; Return (b :: bs)
  end.

(** ** Numbers *)

(** [int(x)] on a float: truncation toward zero. *)
Definition py_int (x : Q) : Z := Z.quot (Qnum x) (Z.pos (Qden x)).

Definition Qleb (a b : Q) : bool := Qle_bool a b.

(** [float(n)] of an integer of less than 63 bits: the nearest binary64
    number, which is [n] itself below 2^53. *)
Definition float_of_Z (z : Z) : float :=
  match z with
  | Z0 => 0%float
  | Zpos _ => PrimFloat.of_uint63 (Uint63.of_Z z)
  | Zneg p => PrimFloat.opp (PrimFloat.of_uint63 (Uint63.of_Z (Zpos p)))
  end.

(** [x % 1.0] on a float.  [fl] is the integer part of [abs(x)] (adding and
    taking away 2^52 rounds to an integer), [m] is C's [fmod(x, 1.0)], which
    has the sign of [x]; Python then moves a negative remainder up by one
    and answers [0.0] for a zero of either sign. *)
Definition float_mod1 (x : float) : float :=
  let a := PrimFloat.abs x in
  let t := (a + 0x1p52 - 0x1p52)%float in
  let fl := if PrimFloat.ltb a t then (t - 1)%float else t in
  let m := if PrimFloat.ltb a 0x1p52 then (a - fl)%float else (a - a)%float in
  let m := if PrimFloat.ltb x 0 then (- m)%float else m in
  if PrimFloat.eqb m 0 then 0%float
  else if PrimFloat.ltb m 0 then (m + 1)%float else m.

(** [x / y] on floats: Python raises [ZeroDivisionError] when [y] is a
    zero. *)
Definition float_div (x y : float) : py float :=
  if PrimFloat.eqb y 0 then Raise "float division by zero"
  else Return (x / y)%float.

(** [max(x, *l)] and [min(x, *l)] on floats: a later item replaces the
    current one when it is strictly larger (smaller). *)
Fixpoint py_max (x : float) (l : list float) : float :=
  match l with
  | [] => x
  | y :: l' => py_max (if PrimFloat.ltb x y then y else x) l'
  end.

Fixpoint py_min (x : float) (l : list float) : float :=
  match l with
  | [] => x
  | y :: l' => py_min (if PrimFloat.ltb y x then y else x) l'
  end.

Module Backend.

(** ** Colours: [#rrggbb] strings *)

Definition hex_digit (c : ascii) : option Z :=
  let n := Z.of_N (N_of_ascii c) in
  if (48 <=? n) && (n <=? 57) then Some (n - 48)
  else if (97 <=? n) && (n <=? 102) then Some (n - 87)
  else if (65 <=? n) && (n <=? 70) then Some (n - 55)
  else None.

(** Python's white space among the ASCII characters. *)
Definition is_space (c : ascii) : bool :=
  let n := Z.of_N (N_of_ascii c) in
  ((9 <=? n) && (n <=? 13)) || (n =? 32).

Fixpoint lstrip (s : string) : string :=
  match s with
  | String c s' => if is_space c then lstrip s' else s
  | EmptyString => s
  end.

Fixpoint all_space (s : string) : bool :=
  match s with
  | String c s' => is_space c && all_space s'
  | EmptyString => true
  end.

(** A run of hexadecimal digits, in which one underscore may stand between
    two digits: its value, and what follows it. *)
Fixpoint int16_digits (acc : Z) (s : string) : Z * string :=
  match s with
  | String c s' =>
      match hex_digit c with
      | Some d => int16_digits (16 * acc + d) s'
      | None =>
          match s' with
          | String c' s'' =>
              match hex_digit c' with
              | Some d =>
                  if Ascii.eqb c "_" then int16_digits (16 * acc + d) s'' else (acc, s)
              | None => (acc, s)
              end
          | EmptyString => (acc, s)
          end
      end
  | EmptyString => (acc, s)
  end.

(** [repr(s)] of an ASCII string: inside double quotes when the string has
    a single quote and no double quote, inside single quotes otherwise. *)
Definition repr_hex (d : Z) : ascii :=
  ascii_of_N (Z.to_N (if d <? 10 then 48 + d else 87 + d)).

Definition backslash : ascii := "092"%char.

Definition repr_char (quote c : ascii) : string :=
  let n := Z.of_N (N_of_ascii c) in
  let escape (t : string) : string := String backslash t in
  if Ascii.eqb c quote || Ascii.eqb c backslash then escape (String c EmptyString)
  else if n =? 9 then escape "t"
  else if n =? 10 then escape "n"
  else if n =? 13 then escape "r"
  else if (n <? 32) || (n =? 127)
  then escape (String "x" (String (repr_hex (n / 16))
                             (String (repr_hex (n mod 16)) EmptyString)))
  else String c EmptyString.

Fixpoint contains (c : ascii) (s : string) : bool :=
  match s with
  | String c' s' => Ascii.eqb c c' || contains c s'
  | EmptyString => false
  end.

Fixpoint repr_body (quote : ascii) (s : string) : string :=
  match s with
  | String c s' => repr_char quote c +:+ repr_body quote s'
  | EmptyString => EmptyString
  end.

Definition repr (s : string) : string :=
  let quote : ascii :=
    if contains "'" s && negb (contains "034" s) then "034"%char else "'"%char in
  String quote (repr_body quote s) +:+ String quote EmptyString.

(** [int(s, 16)] on an ASCII string: white space around, a sign, the prefix
    [0x], then the digits.  What it raises is the text of the [ValueError],
    which shows at most 200 characters of [repr(s)]. *)
Definition int16 (s : string) : py Z :=
  let invalid :=
    Raise ("invalid literal for int() with base 16: " +:+ substring 0 200 (repr s)) in
  let s1 := lstrip s in
  let '(negative, s2) :=
    match s1 with
    | String "+" rest => (false, rest)
    | String "-" rest => (true, rest)
    | _ => (false, s1)
    end in
  let s3 :=
    match s2 with
    | String "0" (String x rest) =>
        if Ascii.eqb x "x" || Ascii.eqb x "X"
        then match rest with
             | String "_" rest' => rest'
             | _ => rest
             end
        else s2
    | _ => s2
    end in
  match s3 with
  | String c _ =>
      match hex_digit c with
      | Some _ =>
          let '(n, rest) := int16_digits 0 s3 in
          if all_space rest then Return (if negative then - n else n) else invalid
      | None => invalid
      end
  | EmptyString => invalid
  end.

(** [tuple(int(hex_color[i:i+2], 16) for i in (1, 3, 5))] *)
Definition hex_to_rgb (hex_color : string) : py (Z * Z * Z) :=
  r ← int16 (substring 1 2 hex_color);
  g ← int16 (substring 3 2 hex_color);
  b ← int16 (substring 5 2 hex_color);
  Return (r, g, b).

(** [colorsys.rgb_to_hsv] of the Python standard library.  The division
    by 6.0 cannot raise. *)
Definition rgb_to_hsv (r g b : float) : py (float * float * float) :=
  let maxc := py_max r [g; b] in
  let minc := py_min r [g; b] in
  let rangec := (maxc - minc)%float in
  let v := maxc in
  if PrimFloat.eqb minc maxc then Return (0%float, 0%float, v)
  else
    s ← float_div rangec maxc;
    rc ← float_div (maxc - r) rangec;
    gc ← float_div (maxc - g) rangec;
    bc ← float_div (maxc - b) rangec;
    let h := if PrimFloat.eqb r maxc then (bc - gc)%float
             else if PrimFloat.eqb g maxc then (2 + rc - bc)%float
             else (4 + gc - rc)%float in
    Return (float_mod1 (h / 6), s, v).

(** The hue in degrees of one colour:
    [colorsys.rgb_to_hsv(rgb[0]/255, rgb[1]/255, rgb[2]/255)[0] * 360]. *)
Definition hue_of_rgb (rgb : Z * Z * Z) : py float :=
  let '(r, g, b) := rgb in
  hsv ← rgb_to_hsv (float_of_Z r / 255)%float (float_of_Z g / 255)%float
                   (float_of_Z b / 255)%float;
  Return (hsv.1.1 * 360)%float.

(** ** Harmony classification *)

(** [160 <= hue_diff <= 200] with [hue_diff = abs(h1 - h2)]. *)
Definition complementary_pair (h1 h2 : float) : bool :=
  let hue_diff := PrimFloat.abs (h1 - h2) in
  PrimFloat.leb 160 hue_diff && PrimFloat.leb hue_diff 200.

(** The double loop [for i ... for j in range(i+1, ...)]. *)
Fixpoint has_complementary (hues : list float) : bool :=
  match hues with
  | [] => false
  | h :: rest => existsb (complementary_pair h) rest || has_complementary rest
  end.

(** [max(hues) - min(hues)] *)
Definition hue_range (hues : list float) : float :=
  match hues with
  | [] => 0%float
  | h :: rest => (py_max h rest - py_min h rest)%float
  end.

Definition classify_hues (hues : list float) : string :=
  if has_complementary hues then "complementary"
  else
    let r := hue_range hues in
    if PrimFloat.leb r 60 then "analogous"
    else if PrimFloat.leb r 120 then "triadic"
    else "diverse".

Definition hues_of (colors : list string) : py (list float) :=
  py_mapM (fun hex_color => rgb ← hex_to_rgb hex_color; hue_of_rgb rgb) colors.

Definition analyze_color_harmony (colors : list string) : py string :=
  if (Z.of_nat (length colors) <? 2) then Return "monochrome"
  else
    hues ← hues_of colors;
    Return (classify_hues hues).

(** ** Image records and the outfit score *)

(** One entry of the [images] array: the dictionary that [/api/upload]
    returns and that [/api/generate-combinations] receives back.  The
    [colors] key may be missing from a received dictionary. *)
Record image_data := {
  img_id : string;
  filename : string;
  original_name : string;
  colors : option (list string);
  color_names : list string;
  clothing_type : string;
  url : string
}.

(** [img.get('colors', [])] *)
Definition get_colors (img : image_data) : list string := default [] (colors img).

Definition harmony_scores : gmap string Z :=
  {[ "complementary" := 95; "analogous" := 90; "triadic" := 85;
     "monochrome" := 80; "diverse" := 75 ]}.

Definition str_in (x : string) (l : list string) : bool := bool_decide (x ∈ l).

Definition occasion_multipliers (harmony : string) : gmap string Q :=
  {[ "formal" := if str_in harmony ["complementary"; "monochrome"] then 0.9%Q else 0.8%Q;
     "casual" := 0.95%Q;
     "party" := if str_in harmony ["complementary"; "diverse"] then 0.95%Q else 0.85%Q;
     "business" := if str_in harmony ["monochrome"; "analogous"] then 0.9%Q else 0.8%Q;
     "sports" := 0.9%Q;
     "wedding" := if String.eqb harmony "complementary" then 0.95%Q else 0.85%Q ]}.

(** The tail of [calculate_outfit_score], from the table lookup on: the
    score of a harmony label on an occasion. *)
Definition harmony_occasion_score (harmony occasion : string) : Z :=
  let color_score := default 70 (harmony_scores !! harmony) in
  let final_score :=
    (inject_Z color_score * default 0.9%Q (occasion_multipliers harmony !! occasion))%Q in
  Z.min 95 (Z.max 65 (py_int final_score)).

Definition calculate_outfit_score
    (images_data : list image_data) (occasion color_preference : string) : py Z :=
  let base_score := 70 in
  let all_colors := flat_map get_colors images_data in
  match all_colors with
  | [] => Return base_score
  | _ =>
      harmony ← analyze_color_harmony all_colors;
      Return (harmony_occasion_score harmony occasion)
  end.

(** ** /api/generate-combinations *)

(** The fields of a combination that carry data; [style_notes],
    [color_analysis] and [recommendation] are text templates filled from
    these and are left out. *)
Record combination := {
  comb_id : Z;
  images : list image_data;
  score : Z;
  rating : Z;
  harmony : string
}.

(** [min(5, max(1, int(score / 20) + 1))] *)
Definition rating_of_score (score : Z) : Z :=
  Z.min 5 (Z.max 1 (py_int (inject_Z score / 20) + 1)).

(** The JSON body of the request when it is an object with at least one
    key, each key that the endpoint reads possibly missing. *)
Record generate_request := {
  req_images : option (list image_data);
  req_occasion : option string;
  req_clothingType : option string;
  req_colorPreference : option string
}.

Inductive body :=
| ErrorBody (error : string)
| UploadBody (success : bool) (imgs : list image_data) (message : string)
| CombinationsBody (success : bool) (combinations : list combination) (total_combinations : Z).

Record response := { status : Z; resp_body : body }.

(** [images_data[i:i+combo_size]], padded from the front of the list. *)
Definition select_images (images_data : list image_data) (i : nat) : list image_data :=
  let combo_size := Nat.min 4 (Nat.max 2 (length images_data - i)) in
  let selected_images := take combo_size (drop i images_data) in
  if (length selected_images <? combo_size)%nat
  then selected_images ++ take (combo_size - length selected_images) images_data
  else selected_images.

(** One iteration of the loop body. *)
Definition make_combination
    (images_data : list image_data) (occasion color_preference : string) (i : nat)
    : py combination :=
  let selected_images := select_images images_data i in
  score ← calculate_outfit_score selected_images occasion color_preference;
  let all_colors := flat_map (fun img => take 2 (get_colors img)) selected_images in
  harmony ← analyze_color_harmony all_colors;
  Return {| comb_id := Z.of_nat i + 1;
            images := selected_images;
            score := score;
            rating := rating_of_score score;
            harmony := harmony |}.

(** [combinations.sort(key=lambda x: x['score'], reverse=True)]: a stable
    sort, larger scores first. *)
Fixpoint insert_by_score (c : combination) (l : list combination) : list combination :=
  match l with
  | [] => [c]
  | d :: l' => if score c <? score d then d :: insert_by_score c l' else c :: d :: l'
  end.

Definition sort_by_score (l : list combination) : list combination :=
  foldr insert_by_score [] l.

(** The endpoint, on what [request.get_json()] returns.  [None] stands for
    a body that Python takes for false, such as [null] and the empty object
    [{}]; [Some data] for an object with at least one key. *)
Definition generate_combinations (data : option generate_request) : response :=
  match data with
  | None => {| status := 400; resp_body := ErrorBody "No data provided" |}
  | Some data =>
      let images_data := default [] (req_images data) in
      let occasion := default "casual" (req_occasion data) in
      let clothing_type := default "" (req_clothingType data) in
      let color_preference := default "" (req_colorPreference data) in
      if (length images_data <? 2)%nat
      then {| status := 400;
              resp_body := ErrorBody "At least 2 images required for combinations" |}
      else
        let num_combinations := Nat.min 4 (length images_data) in
        match py_mapM (make_combination images_data occasion color_preference)
                      (seq 0 num_combinations) with
        | Return combinations =>
            let combinations := sort_by_score combinations in
            {| status := 200;
               resp_body := CombinationsBody true combinations
                              (Z.of_nat (length combinations)) |}
        | Raise e =>
            {| status := 500; resp_body := ErrorBody ("Generation failed: " +:+ e) |}
        end
  end.

(** ** Colour extraction *)

Definition pixel : Type := Z * Z * Z.

(** A decoded image: its shape and its pixels in row order. *)
Record image := { height : Z; width : Z; pixels : list pixel }.

(** What the application calls outside its own code: OpenCV, scikit-learn,
    the upload directory, [uuid], [werkzeug] and [webcolors]. *)
Record libraries := {
  (** [cv2.imread(path)]: [None] when the file cannot be read or decoded,
      otherwise the image with its channels in BGR order. *)
  imread : string -> option image;
  (** [KMeans(n_clusters=k, random_state=42, n_init=10).fit(pixels)
      .cluster_centers_]; scikit-learn raises when it cannot cluster. *)
  KMeans_cluster_centers : nat -> list pixel -> py (list (Q * Q * Q));
  (** The successive values of [uuid.uuid4()]. *)
  uuid4 : nat -> string;
  secure_filename : string -> string;
  (** [file.save(filepath)] *)
  save : string -> string -> py unit;
  (** [get_color_name(hex_color)], a lookup in the tables of [webcolors]
      that answers ["unknown"] instead of raising. *)
  get_color_name : string -> string
}.

(** [cv2.cvtColor(image, cv2.COLOR_BGR2RGB)]: swaps the outer channels and
    fails on an image without pixels. *)
Definition cvtColor_BGR2RGB (img : image) : py image :=
  match pixels img with
  | [] => Raise "cv2.error"
  | _ => Return {| height := height img; width := width img;
                   pixels := map (fun '(b, g, r) => (r, g, b)) (pixels img) |}
  end.

Definition hex_char (d : N) : ascii :=
  nth (N.to_nat d) (list_ascii_of_string "0123456789abcdef") "0"%char.

Fixpoint hex_digits (fuel : nat) (n : N) (acc : string) : string :=
  match fuel with
  | O => acc
  | S fuel' =>
      let acc' := String (hex_char (n mod 16)) acc in
      if (n / 16 =? 0)%N then acc' else hex_digits fuel' (n / 16)%N acc'
  end.

(** ['{:02x}'.format(n)] for [n >= 0]: lower-case hexadecimal, padded with
    a zero to two characters. *)
Definition format_02x (n : Z) : string :=
  let digits := hex_digits (S (N.to_nat (N.log2 (Z.to_N n)))) (Z.to_N n) "" in
  if (String.length digits <? 2)%nat then "0" +:+ digits else digits.

(** [cluster_centers_.astype(int)] on one centre. *)
Definition astype_int (c : Q * Q * Q) : pixel :=
  let '(x, y, z) := c in (py_int x, py_int y, py_int z).

Definition hex_color_of (color : pixel) : string :=
  let '(c0, c1, c2) := color in
  "#" +:+ format_02x c0 +:+ format_02x c1 +:+ format_02x c2.

Definition extract_dominant_colors
    (L : libraries) (image_path : string) (num_colors : nat) : list string :=
  match imread L image_path with
  | None => []
  | Some image =>
      match (image ← cvtColor_BGR2RGB image;
             centers ← KMeans_cluster_centers L num_colors (pixels image);
             Return (map (fun c => hex_color_of (astype_int c)) centers)) with
      | Return hex_colors => hex_colors
      | Raise _ => ["#000000"; "#FFFFFF"]
      end
  end.

Definition detect_clothing_type (L : libraries) (image_path : string) : string :=
  match imread L image_path with
  | None => "unknown"
  | Some image =>
      if width image =? 0 then "unknown"
      else
        let aspect_ratio := (inject_Z (height image) / inject_Z (width image))%Q in
        if negb (Qleb aspect_ratio 1.5) then
          if negb (Qleb aspect_ratio 2.0) then "dress" else "shirt"
        else if negb (Qleb 0.8 aspect_ratio) then "pants"
        else "top"
  end.

(** ** /api/upload *)

Definition ALLOWED_EXTENSIONS : gset string :=
  {[ "png"; "jpg"; "jpeg"; "gif"; "bmp"; "webp" ]}.

(** [filename.rsplit('.', 1)[1]]: the text after the last dot, if there is
    a dot at all. *)
Fixpoint rsplit_dot (filename : string) : option string :=
  match filename with
  | EmptyString => None
  | String c rest =>
      match rsplit_dot rest with
      | Some ext => Some ext
      | None => if Ascii.eqb c "." then Some rest else None
      end
  end.

Definition lower_char (c : ascii) : ascii :=
  let n := N_of_ascii c in
  if ((65 <=? n) && (n <=? 90))%N then ascii_of_N (n + 32) else c.

Fixpoint lower (s : string) : string :=
  match s with
  | EmptyString => EmptyString
  | String c rest => String (lower_char c) (lower rest)
  end.

Definition allowed_file (filename : string) : bool :=
  match rsplit_dot filename with
  | None => false
  | Some ext => bool_decide (lower ext ∈ ALLOWED_EXTENSIONS)
  end.

(** One part of the multipart form. *)
Record FileStorage := { fs_filename : string; fs_content : string }.

(** The body of the loop for a file that passed both tests; [n] counts the
    identifiers drawn so far. *)
Definition process_upload (L : libraries) (n : nat) (file : FileStorage) : py image_data :=
  let stored_name := uuid4 L n +:+ "_" +:+ secure_filename L (fs_filename file) in
  let filepath := "uploads/" +:+ stored_name in
  _ ← save L filepath (fs_content file);
  let found_colors := extract_dominant_colors L filepath 5 in
  let found_type := detect_clothing_type L filepath in
  Return {| img_id := uuid4 L (S n);
            filename := stored_name;
            original_name := fs_filename file;
            colors := Some found_colors;
            color_names := map (get_color_name L) (take 3 found_colors);
            clothing_type := found_type;
            url := "/uploads/" +:+ stored_name |}.

Fixpoint process_files (L : libraries) (n : nat) (files : list FileStorage)
    : py (list image_data) :=
  match files with
  | [] => Return []
  | file :: rest =>
      if negb (String.eqb (fs_filename file) "") && allowed_file (fs_filename file)
      then
        data ← process_upload L n file;
        processed ← process_files L (S (S n)) rest;
        Return (data :: processed)
      else process_files L n rest
  end.

(** The endpoint; [None] when the form has no [images] field. *)
Definition upload_images (L : libraries) (images_field : option (list FileStorage))
    : response :=
  match images_field with
  | None => {| status := 400; resp_body := ErrorBody "No images provided" |}
  | Some files =>
      if bool_decide (files = []) || forallb (fun file => String.eqb (fs_filename file) "") files
      then {| status := 400; resp_body := ErrorBody "No images selected" |}
      else
        match process_files L 0 files with
        | Return processed_images =>
            {| status := 200;
               resp_body := UploadBody true processed_images
                 ("Successfully processed " +:+ pretty (length processed_images)
                  +:+ " images") |}
        | Raise e =>
            {| status := 500; resp_body := ErrorBody ("Upload failed: " +:+ e) |}
        end
  end.

End Backend.

(** * The front end of [script.js] *)

Module ScriptJs.

Record File := { file_name : string; file_type : string }.

(** [id] is the number [Date.now() + Math.random()]. *)
Record fileData := {
  file : File;
  url : string;
  name : string;
  id : float
}.

(** The page: the global [uploadedFiles], the FileReaders that were started
    and have not fired [onload] yet, and the children of the
    [uploadedImages] element. *)
Record page := {
  uploadedFiles : list fileData;
  readers : list File;
  rendered : list fileData
}.

Definition initial : page :=
  {| uploadedFiles := []; readers := []; rendered := [] |}.

(** [file.type.startsWith('image/')] *)
Definition is_image (f : File) : bool := String.prefix "image/" (file_type f).

(** [processFiles(files)]: starts one reader per image file. *)
Definition processFiles (p : page) (files : list File) : page :=
  {| uploadedFiles := uploadedFiles p;
     readers := readers p ++ filter (fun f => is_image f = true) files;
     rendered := rendered p |}.

(** [reader.onload] of the [k]-th pending reader, with what the browser
    supplies: the data URL, the integer [Date.now()] and the number
    [Math.random()].  Their sum is rounded to a binary64 number. *)
Definition onload (p : page) (k : nat) (result : string) (now : Z) (random : float)
    : page :=
  match readers p !! k with
  | None => p
  | Some f =>
      let data := {| file := f; url := result; name := file_name f;
                     id := (float_of_Z now + random)%float |} in
      {| uploadedFiles := uploadedFiles p ++ [data];
         readers := delete k (readers p);
         rendered := rendered p ++ [data] |}
  end.

(** [removeImage(id)]: [file.id !== id] keeps a file. *)
Definition removeImage (p : page) (id0 : float) : page :=
  let kept := filter (fun f => PrimFloat.eqb (id f) id0 = false) (uploadedFiles p) in
  {| uploadedFiles := kept; readers := readers p; rendered := kept |}.

End ScriptJs.

(** * The class-based front end [AIStyleMatcher] *)

Module StyleMatcher.

Record File := { file_name : string; file_type : string }.

Record imageData := {
  id : float;
  name : string;
  src : string;
  file : File
}.

(** [this.uploadedImages] and the FileReaders still loading. *)
Record matcher := {
  uploadedImages : list imageData;
  readers : list File
}.

(** [constructor()] *)
Definition new : matcher := {| uploadedImages := []; readers := [] |}.

Definition is_image (f : File) : bool := String.prefix "image/" (file_type f).

(** The [forEach] of [processFiles]: the length test is made when the
    reader is started. *)
Fixpoint start_readers (m : matcher) (imageFiles : list File) : matcher :=
  match imageFiles with
  | [] => m
  | f :: rest =>
      if (length (uploadedImages m) <? 12)%nat
      then start_readers {| uploadedImages := uploadedImages m;
                            readers := readers m ++ [f] |} rest
      else start_readers m rest
  end.

Definition processFiles (m : matcher) (files : list File) : matcher :=
  let imageFiles := filter (fun f => is_image f = true) files in
  start_readers m imageFiles.

(** [reader.onload] of the [k]-th pending reader. *)
Definition onload (m : matcher) (k : nat) (result : string) (now : Z) (random : float)
    : matcher :=
  match readers m !! k with
  | None => m
  | Some f =>
      {| uploadedImages := uploadedImages m ++
           [{| id := (float_of_Z now + random)%float; name := file_name f;
               src := result; file := f |}];
         readers := delete k (readers m) |}
  end.

(** [removeImage(imageId)]: [img.id != imageId] keeps an image. *)
Definition removeImage (m : matcher) (imageId : float) : matcher :=
  {| uploadedImages :=
       filter (fun img => PrimFloat.eqb (id img) imageId = false) (uploadedImages m);
     readers := readers m |}.

(** What can happen to the page. *)
Inductive event :=
| ProcessFiles (files : list File)
| Onload (k : nat) (result : string) (now : Z) (random : float)
| RemoveImage (imageId : float).

Definition step (m : matcher) (e : event) : matcher :=
  match e with
  | ProcessFiles files => processFiles m files
  | Onload k result now random => onload m k result now random
  | RemoveImage imageId => removeImage m imageId
  end.

Definition run (m : matcher) (es : list event) : matcher := foldl step m es.

End StyleMatcher.

Import Backend.

Create HintDb py.
#[local] Hint Unfold mbind mret py_bind py_ret : py.

(** * Vocabulary of the statements *)

(** A hue in degrees lies on the colour wheel: [0 <= h < 360], as
    comparisons of floats. *)
Definition in_wheel (h : float) : Prop :=
  PrimFloat.leb 0 h = true /\ PrimFloat.ltb h 360 = true.

(** The difference of two hues, as the classifier computes it. *)
Definition hue_difference (a b : float) : float := PrimFloat.abs (a - b).

(** Some unordered pair of positions holds hues that lie opposite: their
    difference is between 160 and 200. *)
Definition opposite_pair (hues : list float) : Prop :=
  exists (i j : nat) (a b : float),
    (i < j)%nat /\ hues !! i = Some a /\ hues !! j = Some b /\
    PrimFloat.leb 160 (hue_difference a b) = true /\
    PrimFloat.leb (hue_difference a b) 200 = true.

(** The largest and the smallest element of a list. *)
Definition is_max (m : float) (l : list float) : Prop :=
  In m l /\ forall x, In x l -> PrimFloat.leb x m = true.

Definition is_min (m : float) (l : list float) : Prop :=
  In m l /\ forall x, In x l -> PrimFloat.leb m x = true.

(** The hue that the classifier computes for a colour. *)
Definition hue_of_color (c : string) (h : float) : Prop :=
  exists rgb, hex_to_rgb c = Return rgb /\ hue_of_rgb rgb = Return h.

(** *** Hues in exact arithmetic *)

(** [x % 1.0] on a rational: the result lies in [0,1). *)
Definition Qmod1 (x : Q) : Q := (x - inject_Z (Qfloor x))%Q.

(** The formula of [colorsys.rgb_to_hsv] over the rationals, without any
    rounding. *)
Definition exact_rgb_to_hsv (r g b : Q) : Q * Q * Q :=
  let maxc := Qmax (Qmax r g) b in
  let minc := Qmin (Qmin r g) b in
  let rangec := (maxc - minc)%Q in
  let v := maxc in
  if Qeq_bool minc maxc then (0%Q, 0%Q, v)
  else
    let s := (rangec / maxc)%Q in
    let rc := ((maxc - r) / rangec)%Q in
    let gc := ((maxc - g) / rangec)%Q in
    let bc := ((maxc - b) / rangec)%Q in
    let h := if Qeq_bool r maxc then (bc - gc)%Q
             else if Qeq_bool g maxc then (2 + rc - bc)%Q
             else (4 + gc - rc)%Q in
    (Qmod1 (h / 6), s, v).

(** The hue of a colour in degrees, as a rational number. *)
Definition exact_hue (rgb : Z * Z * Z) : Q :=
  let '(r, g, b) := rgb in
  let '(h, _, _) :=
    exact_rgb_to_hsv (inject_Z r / 255) (inject_Z g / 255) (inject_Z b / 255) in
  (h * 360)%Q.

(** The distance of two hues around the colour wheel. *)
Definition circular_difference (a b : Q) : Q :=
  Qmin (Qabs (a - b)) (360 - Qabs (a - b)).

(** *** The hues of all colours *)

(** The values [c / 255] of the 256 values of a channel. *)
Definition channel_values : list float :=
  map (fun k => (float_of_Z (Z.of_nat k) / 255)%float) (seq 0 256).

(** [hue_of_rgb] on channels that are already divided by 255. *)
Definition hue_of_channels (r g b : float) : py float :=
  hsv ← rgb_to_hsv r g b; Return (hsv.1.1 * 360)%float.

(** The float is [+0.0] or a positive finite number, and below 360. *)
Definition on_wheel (h : float) : bool :=
  match PrimFloat.classify h with
  | PZero | PNormal | PSubn => PrimFloat.ltb h 360
  | _ => false
  end.

(** The hue is computed without error and lies on the wheel. *)
Definition hue_on_wheel (hue : py float) : bool :=
  match hue with
  | Return h => on_wheel h
  | Raise _ => false
  end.

(** A test holds of every triple of elements of a list. *)
Definition forallb3 {A} (cs : list A) (test : A -> A -> A -> bool) : bool :=
  forallb (fun r => forallb (fun g => forallb (fun b => test r g b) cs) cs) cs.

(** The same on the specification of a float: a sign, a mantissa and an
    exponent. *)
Definition wheel_sf (f : spec_float) : Prop :=
  f = S754_zero false \/ exists m e, f = S754_finite false m e.

Definition wheel (h : float) : Prop := wheel_sf (Prim2SF h).


(** [int(x)] on a binary64 number that is finite: truncation toward
    zero of the mantissa scaled by its exponent. *)
Definition float_trunc (x : float) : Z :=
  match Prim2SF x with
  | S754_finite s m e =>
      let v := if 0 <=? e then Z.shiftl (Z.pos m) e else Z.shiftr (Z.pos m) (- e) in
      if s then - v else v
  | _ => 0
  end.

(** The base scores and the multipliers of [calculate_outfit_score], the
    latter as fractions. *)
Definition base_scores : list Z := [95; 90; 85; 80; 75; 70].

Definition multiplier_fractions : list (Z * Z) := [(9, 10); (8, 10); (95, 100); (85, 100)].

(** Every channel of the colour is a value of a byte. *)
Definition byte_channels (rgb : Z * Z * Z) : Prop :=
  let '(r, g, b) := rgb in 0 <= r <= 255 /\ 0 <= g <= 255 /\ 0 <= b <= 255.

(** The hexadecimal digits and their values. *)
Definition hex_table : list (ascii * Z) :=
  [("0", 0); ("1", 1); ("2", 2); ("3", 3); ("4", 4); ("5", 5); ("6", 6); ("7", 7);
   ("8", 8); ("9", 9); ("a", 10); ("b", 11); ("c", 12); ("d", 13); ("e", 14);
   ("f", 15); ("A", 10); ("B", 11); ("C", 12); ("D", 13); ("E", 14); ("F", 15)]%char.

Definition is_hex_digit (c : ascii) : bool :=
  match hex_digit c with Some _ => true | None => false end.

(** A colour in canonical form: [#] and six hexadecimal digits. *)
Definition is_hex_color (s : string) : bool :=
  match list_ascii_of_string s with
  | [c0; c1; c2; c3; c4; c5; c6] =>
      Ascii.eqb c0 "#" && forallb is_hex_digit [c1; c2; c3; c4; c5; c6]
  | _ => false
  end.

(** The combinations of a response, none unless it is a success. *)
Definition combinations_of (r : response) : list combination :=
  match resp_body r with
  | CombinationsBody _ combinations _ => combinations
  | _ => []
  end.

(** [data.get('occasion', 'casual')] *)
Definition occasion_of (data : option generate_request) : string :=
  default "casual" (data ≫= req_occasion).

(** All colours of the images of a combination: what
    [calculate_outfit_score] collects. *)
Definition all_colors_of (c : combination) : list string :=
  flat_map get_colors (images c).

(** The colours behind the [harmony] field: two per image. *)
Definition top_colors_of (c : combination) : list string :=
  flat_map (fun img => take 2 (get_colors img)) (images c).

(** [clamp(x, lo, hi)] *)
Definition clamp (x lo hi : Z) : Z := Z.max lo (Z.min hi x).

(** The fallback pair: black and white. *)
Definition fallback_colors : list string := ["#000000"; "#FFFFFF"].

(** The squared distance of a pixel and a centre. *)
Definition sq_dist (p : pixel) (c : Q * Q * Q) : Q :=
  let '(p0, p1, p2) := p in
  let '(c0, c1, c2) := c in
  ((inject_Z p0 - c0) * (inject_Z p0 - c0) +
   (inject_Z p1 - c1) * (inject_Z p1 - c1) +
   (inject_Z p2 - c2) * (inject_Z p2 - c2))%Q.

Fixpoint argmin_from (best : nat) (best_d : Q) (i : nat) (ds : list Q) : nat :=
  match ds with
  | [] => best
  | d :: ds' =>
      if Qleb best_d d then argmin_from best best_d (S i) ds'
      else argmin_from i d (S i) ds'
  end.

(** The index of the centre nearest to a pixel: its cluster. *)
Definition nearest (centers : list (Q * Q * Q)) (p : pixel) : nat :=
  match map (sq_dist p) centers with
  | [] => 0%nat
  | d :: ds => argmin_from 0 d 1 ds
  end.

(** How many pixels each centre stands for. *)
Definition cluster_sizes (centers : list (Q * Q * Q)) (px : list pixel) : list nat :=
  map (fun i => length (filter (fun p => nearest centers p = i) px))
      (seq 0 (length centers)).

(** Larger clusters come first. *)
Definition largest_first (sizes : list nat) : Prop :=
  forall (i j a b : nat),
    (i < j)%nat -> sizes !! i = Some a -> sizes !! j = Some b -> (b <= a)%nat.





(** * Inputs used in examples *)

(** An image record of two opposite colours. *)
Definition red_cyan_image : image_data :=
  {| img_id := "1"; filename := "1_a.png"; original_name := "a.png";
     colors := Some ["#ff0000"; "#00ffff"]; color_names := [];
     clothing_type := "top"; url := "/uploads/1_a.png" |}.

(** An image record that carries the colours [cs]. *)
Definition plain_image (name : string) (cs : list string) : image_data :=
  {| img_id := name; filename := name; original_name := name;
     colors := Some cs; color_names := []; clothing_type := "top";
     url := "/uploads/" +:+ name |}.

(** Three images of five colours each, all of them reds of hue 0 except the
    third colour of the first image, which is the opposite cyan. *)
Definition three_reds_request : generate_request :=
  {| req_images :=
       Some [plain_image "a.png" ["#ff0000"; "#f00000"; "#00ffff"; "#e00000"; "#d00000"];
             plain_image "b.png" ["#ff0000"; "#f00000"; "#e00000"; "#d00000"; "#c00000"];
             plain_image "c.png" ["#fe0000"; "#f10000"; "#e10000"; "#d10000"; "#c10000"]];
     req_occasion := Some "formal";
     req_clothingType := None;
     req_colorPreference := None |}.

(** A world in which no file can be read. *)
Definition nothing_readable : libraries :=
  {| imread := fun _ => None;
     KMeans_cluster_centers := fun _ _ => Raise "ValueError";
     uuid4 := fun n => pretty n;
     secure_filename := fun s => s;
     save := fun _ _ => Return ();
     get_color_name := fun _ => "unknown" |}.

(** A world whose only file decodes to an image of height and width 0. *)
Definition empty_image_world : libraries :=
  {| imread := fun _ => Some {| height := 0; width := 0; pixels := [] |};
     KMeans_cluster_centers := fun _ _ => Raise "ValueError";
     uuid4 := fun n => pretty n;
     secure_filename := fun s => s;
     save := fun _ _ => Return ();
     get_color_name := fun _ => "unknown" |}.

(** A photograph of seven pixels, three of them white, as [cv2.imread]
    gives it and after the channel swap, and five centres that cluster it
    without error, the white one last. *)
Definition seven_pixels_bgr : list pixel :=
  [(0, 0, 0); (0, 0, 255); (0, 255, 0); (255, 0, 0);
   (255, 255, 255); (255, 255, 255); (255, 255, 255)].

Definition seven_pixels_rgb : list pixel :=
  [(0, 0, 0); (255, 0, 0); (0, 255, 0); (0, 0, 255);
   (255, 255, 255); (255, 255, 255); (255, 255, 255)].

Definition five_centers : list (Q * Q * Q) :=
  [(0, 0, 0); (255, 0, 0); (0, 255, 0); (0, 0, 255); (255, 255, 255)]%Q.

Definition seven_pixel_world : libraries :=
  {| imread := fun _ => Some {| height := 1; width := 7; pixels := seven_pixels_bgr |};
     KMeans_cluster_centers := fun k px =>
       if (k =? 5)%nat then Return five_centers else Raise "ValueError";
     uuid4 := fun n => pretty n;
     secure_filename := fun s => s;
     save := fun _ _ => Return ();
     get_color_name := fun _ => "unknown" |}.

Definition shirt_photo : ScriptJs.File :=
  {| ScriptJs.file_name := "shirt.png"; ScriptJs.file_type := "image/png" |}.


Definition photo : StyleMatcher.File :=
  {| StyleMatcher.file_name := "photo.png"; StyleMatcher.file_type := "image/png" |}.

(** Thirteen photographs chosen at once, then their thirteen loads. *)
Definition thirteen_at_once : list StyleMatcher.event :=
  StyleMatcher.ProcessFiles (replicate 13 photo) ::
  map (fun k => StyleMatcher.Onload 0 "data:image/png;base64,AA"
                  (1700000000000 + Z.of_nat k) 0.5%float)
      (seq 0 13).

(** * More of the backend *)

(** ** /api/analyze-image *)

(** The [analysis] object of the answer. *)
Record analysis := {
  an_colors : list string;
  an_color_names : list string;
  an_clothing_type : string;
  an_width : Z;
  an_height : Z;
  dominant_color : string;
  color_diversity : nat
}.

Inductive analysis_response :=
| AnalysisError (code : Z) (error : string)
| AnalysisOk (a : analysis).

(** What this endpoint calls besides [libraries]: [Image.open(path).size]
    of PIL and [os.remove]. *)
Record file_tools := {
  Image_open_size : string -> py (Z * Z);
  os_remove : string -> py unit
}.

(** The endpoint; [None] when the form has no [image] field. *)
Definition analyze_single_image
    (L : libraries) (T : file_tools) (image_field : option FileStorage)
    : analysis_response :=
  match image_field with
  | None => AnalysisError 400 "No image provided"
  | Some file =>
      if String.eqb (fs_filename file) "" || negb (allowed_file (fs_filename file))
      then AnalysisError 400 "Invalid file type"
      else
        let stored_name :=
          "temp_" +:+ uuid4 L 0 +:+ "_" +:+ secure_filename L (fs_filename file) in
        let filepath := "uploads/" +:+ stored_name in
        match (_ ← save L filepath (fs_content file);
               let found_colors := extract_dominant_colors L filepath 8 in
               let found_type := detect_clothing_type L filepath in
               let names := map (get_color_name L) (take 5 found_colors) in
               size ← Image_open_size T filepath;
               _ ← os_remove T filepath;
               Return {| an_colors := found_colors;
                         an_color_names := names;
                         an_clothing_type := found_type;
                         an_width := fst size;
                         an_height := snd size;
                         dominant_color :=
                           match found_colors with
                           | c :: _ => c
                           | [] => "#000000"
                           end;
                         color_diversity := length (remove_dups found_colors) |}) with
        | Return a => AnalysisOk a
        | Raise e => AnalysisError 500 ("Analysis failed: " +:+ e)
        end
  end.

(** ** Vocabulary for the backend *)

(** The five labels of the classifier. *)
Definition harmony_labels : list string :=
  ["monochrome"; "complementary"; "analogous"; "triadic"; "diverse"].

(** A colour channel: an integer from 0 to 255. *)
Definition is_channel (n : Z) : Prop := 0 <= n <= 255.

(** A coordinate of a cluster centre inside the range of the pixels. *)
Definition in_pixel_range (q : Q) : Prop := (0 <= q /\ q < 256)%Q.

Definition center_in_range (c : Q * Q * Q) : Prop :=
  in_pixel_range (fst (fst c)) /\ in_pixel_range (snd (fst c)) /\ in_pixel_range (snd c).

(** The clustering of [L] only answers with centres in the pixel range. *)
Definition centers_in_range (L : libraries) : Prop :=
  forall (k : nat) (px : list pixel) (centers : list (Q * Q * Q)),
    KMeans_cluster_centers L k px = Return centers -> Forall center_in_range centers.

(** All the colours of an image record are canonical. *)
Definition canonical_image (img : image_data) : Prop :=
  Forall (fun c => is_hex_color c = true) (get_colors img).

(** [c] comes before [d] in a list sorted by falling score. *)
Definition score_ge (c d : combination) : Prop := score d <= score c.

(** The images of an upload answer, none unless it is a success. *)
Definition images_of (r : response) : list image_data :=
  match resp_body r with
  | UploadBody _ imgs _ => imgs
  | _ => []
  end.

(** A file passes the two tests of the upload loop. *)
Definition accepted (file : FileStorage) : bool :=
  negb (String.eqb (fs_filename file) "") && allowed_file (fs_filename file).

(** The string contains a dot. *)
Definition has_dot (s : string) : bool :=
  existsb (Ascii.eqb ".") (list_ascii_of_string s).

(** What [process_upload] always puts in a record: the address under
    [/uploads/], a colour list, and names for its first three colours. *)
Definition well_formed_upload (img : image_data) : Prop :=
  url img = "/uploads/" +:+ filename img /\
  exists cs : list string,
    colors img = Some cs /\ length (color_names img) = Nat.min 3 (length cs).

(** A world in which nothing can be written. *)
Definition read_only_world : libraries :=
  {| imread := fun _ => None;
     KMeans_cluster_centers := fun _ _ => Raise "ValueError";
     uuid4 := fun n => pretty n;
     secure_filename := fun s => s;
     save := fun _ _ => Raise "PermissionError";
     get_color_name := fun _ => "unknown" |}.

(** File tools that find an image of 640 by 480. *)
Definition plain_tools : file_tools :=
  {| Image_open_size := fun _ => Return (640, 480);
     os_remove := fun _ => Return () |}.

(** * More of [script.js] *)

Module ScriptJsUi.

Import ScriptJs.

(** [Math.floor(Math.random() * n)] for the value [r] of [Math.random()]. *)
Definition random_below (r : Q) (n : Z) : Z := Qfloor (r * inject_Z n).

(** [handleDrop(event)]: the page afterwards, and the error shown if any. *)
Definition handleDrop (p : page) (files : list File) : page * option string :=
  let imageFiles := filter (fun f => is_image f = true) files in
  if (0 <? length imageFiles)%nat
  then (processFiles p imageFiles, None)
  else (p, Some "Please drop only image files.").

(** [handleFileSelect(event)] *)
Definition handleFileSelect (p : page) (files : list File) : page :=
  processFiles p files.

(** What the user and the browser can do to the page. *)
Inductive event :=
| FileSelect (files : list File)
| Drop (files : list File)
| Onload (k : nat) (result : string) (now : Z) (random : float)
| RemoveImage (id0 : float).

Definition step (p : page) (e : event) : page :=
  match e with
  | FileSelect files => handleFileSelect p files
  | Drop files => fst (handleDrop p files)
  | Onload k result now random => onload p k result now random
  | RemoveImage id0 => removeImage p id0
  end.

Definition run (p : page) (es : list event) : page := foldl step p es.

(** [updateGenerateButton()]: the value it gives to [generateBtn.disabled],
    for the value of the occasion field. *)
Definition generate_disabled (p : page) (occasion_value : string) : bool :=
  let hasImages := (0 <? length (uploadedFiles p))%nat in
  let hasOccasion := negb (String.eqb occasion_value "") in
  negb (hasImages && hasOccasion).

(** The two checks at the head of [generateCombinations()]: the error that
    is shown, if any. *)
Definition generateCombinations_error (p : page) (occasion_value : string)
    : option string :=
  if (length (uploadedFiles p) =? 0)%nat
  then Some "Please upload at least one clothing item."
  else if String.eqb occasion_value ""
  then Some "Please select an occasion."
  else None.

(** [getRandomImages(min, max)], for the value [r] of [Math.random()] and
    the order [shuffled] that the randomly compared sort leaves. *)
Definition getRandomImages (p : page) (min max : Z) (r : Q) (shuffled : list fileData)
    : list fileData :=
  let count :=
    Z.min (Z.max min (random_below r (max - min + 1) + min))
          (Z.of_nat (length (uploadedFiles p))) in
  take (Z.to_nat count) shuffled.

(** [analyzeColors()]; [None] is JavaScript's [undefined]. *)
Definition analyzeColors (r : Q) : option string :=
  let colorAnalysis :=
    ["Complementary color scheme detected";
     "Harmonious color palette";
     "Bold color contrast";
     "Monochromatic styling";
     "Neutral base with accent colors"] in
  let i := random_below r (Z.of_nat (length colorAnalysis)) in
  if i <? 0 then None else colorAnalysis !! Z.to_nat i.

(** [notes.join(' • ')] *)
Fixpoint join_bullet (notes : list string) : string :=
  match notes with
  | [] => ""
  | [n] => n
  | n :: rest => n +:+ " • " +:+ join_bullet rest
  end.

Definition generateStyleNotes (occasion clothingType colorPref : string) : string :=
  let notes1 :=
    if String.eqb occasion "formal" then ["Sophisticated and elegant pairing"]
    else if String.eqb occasion "casual" then ["Relaxed and comfortable combination"]
    else if String.eqb occasion "party" then ["Eye-catching and trendy styling"]
    else [] in
  let notes2 :=
    if String.eqb clothingType "" then []
    else ["Focused on " +:+ clothingType +:+ " as the main piece"] in
  let notes3 :=
    if String.eqb colorPref "" then []
    else ["Emphasizing " +:+ colorPref +:+ " color scheme"] in
  join_bullet (notes1 ++ notes2 ++ notes3).

Record combination := {
  comb_id : Z;
  title : string;
  description : string;
  rating : Z;
  confidence : Z;
  images : list fileData;
  colorAnalysis : option string;
  styleNotes : string
}.

(** The three scenarios: title, description, rating and confidence. *)
Definition scenarios (occasionValue : string) : list (string * string * Z * Z) :=
  [("Perfect " +:+ occasionValue +:+ " Look",
    "Ideal combination for " +:+ occasionValue +:+ " occasions with great color harmony",
    5, 95);
   ("Classic " +:+ occasionValue +:+ " Style",
    "Timeless combination that works well for " +:+ occasionValue +:+ " events",
    4, 88);
   ("Modern " +:+ occasionValue +:+ " Outfit",
    "Contemporary styling perfect for " +:+ occasionValue +:+ " settings",
    4, 82)].

(** What chance decides for one combination: the number drawn for the
    count of images, the shuffled files, the number drawn for the colour
    analysis. *)
Record draws := {
  count_draw : Q;
  shuffled : list fileData;
  analysis_draw : Q
}.

(** [generateMockCombinations()], for the values of the three form fields
    and the draws of each scenario. *)
Definition generateMockCombinations
    (p : page) (occasionValue clothingTypeValue colorPreferenceValue : string)
    (chance : nat -> draws) : list combination :=
  omap (fun '(index, (t, d, r, c)) =>
          if (index <? Nat.min (length (uploadedFiles p)) 3)%nat
          then Some {| comb_id := Z.of_nat index + 1;
                       title := t;
                       description := d;
                       rating := r;
                       confidence := c;
                       images := getRandomImages p 2 4 (count_draw (chance index))
                                                 (shuffled (chance index));
                       colorAnalysis := analyzeColors (analysis_draw (chance index));
                       styleNotes := generateStyleNotes occasionValue clothingTypeValue
                                                        colorPreferenceValue |}
          else None)
       (imap (fun index s => (index, s)) (scenarios occasionValue)).

End ScriptJsUi.

(** * The page of the backend: [static/js/script.js] *)

Module ClientJs.

(** The state of the page is [uploadedImages], the list of the records
    received from [/api/upload]. *)

(** The part of [uploadImagesToBackend] that handles the parsed answer:
    the list afterwards and the message shown. *)
Definition receive_upload (uploadedImages : list image_data) (result : response)
    : list image_data * string :=
  match resp_body result with
  | UploadBody true imgs _ =>
      (uploadedImages ++ imgs,
       "Successfully processed " +:+ pretty (length imgs) +:+ " images")
  | ErrorBody error => (uploadedImages, if String.eqb error "" then "Upload failed" else error)
  | _ => (uploadedImages, "Upload failed")
  end.

(** [removeImage(index)]: [uploadedImages.splice(index, 1)] for an index
    that is not negative. *)
Definition removeImage (uploadedImages : list image_data) (index : nat) : list image_data :=
  delete index uploadedImages.

(** [updateGenerateButton()]: the value given to [generateBtn.disabled]. *)
Definition generate_disabled (uploadedImages : list image_data) (occasion_value : string) : bool :=
  let hasImages := (2 <=? length uploadedImages)%nat in
  let hasOccasion := negb (String.eqb occasion_value "") in
  negb (hasImages && hasOccasion).

(** [generateCombinations()] up to the request: the error shown, or the
    body that is posted to [/api/generate-combinations]. *)
Definition generateCombinations_request
    (uploadedImages : list image_data) (occasion_value clothingType_value colorPreference_value : string)
    : string + generate_request :=
  if (length uploadedImages <? 2)%nat
  then inl "Please upload at least 2 clothing items."
  else if String.eqb occasion_value ""
  then inl "Please select an occasion."
  else inr {| req_images := Some uploadedImages;
              req_occasion := Some occasion_value;
              req_clothingType := Some clothingType_value;
              req_colorPreference := Some colorPreference_value |}.

End ClientJs.

(** * More of [AIStyleMatcher] *)

Module StyleMatcherUi.

Import StyleMatcher.

(** [Math.floor(Math.random() * n)] for the value [r] of [Math.random()]. *)
Definition random_below (r : Q) (n : Z) : Z := Qfloor (r * inject_Z n).

(** An element of a JavaScript array; [None] is [undefined]. *)
Definition at_index (l : list string) (i : Z) : option string :=
  if i <? 0 then None else l !! Z.to_nat i.

(** [updateGenerateButtonState()]: the value given to [generateBtn.disabled]
    when the button and the occasion field exist. *)
Definition generate_disabled (m : matcher) (occasion : string) : bool :=
  let hasImages := (0 <? length (uploadedImages m))%nat in
  negb (hasImages && negb (String.eqb occasion "")).

(** [handleFormSubmit(e)] up to the call of [generateCombinations]: the
    alert that is shown, if any. *)
Definition handleFormSubmit_alert (m : matcher) (occasion : string) : option string :=
  if (length (uploadedImages m) =? 0)%nat
  then Some "Please upload at least one clothing item."
  else if String.eqb occasion ""
  then Some "Please select an occasion."
  else None.

(** The names that an object literal inherits from [Object.prototype]:
    its methods, and [__proto__], which gives that object itself. *)
Definition inherited_names : list string :=
  ["constructor"; "hasOwnProperty"; "isPrototypeOf"; "propertyIsEnumerable";
   "toLocaleString"; "toString"; "valueOf"; "__proto__";
   "__defineGetter__"; "__defineSetter__"; "__lookupGetter__"; "__lookupSetter__"].

(** What [object[key]] finds in an object literal: a property of the
    literal, a member inherited from [Object.prototype], or [undefined]. *)
Inductive member (A : Type) : Type :=
| Own (a : A)
| Inherited
| Missing.
Arguments Own {A} a.
Arguments Inherited {A}.
Arguments Missing {A}.

Definition get_member {A} (object : gmap string A) (key : string) : member A :=
  match object !! key with
  | Some a => Own a
  | None => if bool_decide (key ∈ inherited_names) then Inherited else Missing
  end.

(** The tables of [generateColorAnalysis] and [generateStyleNotes]. *)
Definition analyses : gmap string (list string) :=
  {[ "bright" :=
       ["Vibrant colors create an energetic and confident look";
        "Bold color choices make a strong fashion statement";
        "Bright hues add personality and visual interest"];
     "dark" :=
       ["Deep tones create a sophisticated and elegant appearance";
        "Dark colors provide a timeless and versatile foundation";
        "Rich colors convey professionalism and refinement"];
     "neutral" :=
       ["Neutral tones offer versatility and timeless appeal";
        "Subtle colors create a balanced and harmonious look";
        "Earth tones provide a natural and calming aesthetic"];
     "pastel" :=
       ["Soft pastels create a gentle and romantic appearance";
        "Light colors bring freshness and femininity to the outfit";
        "Delicate hues offer a dreamy and ethereal quality"];
     "" :=
       ["Well-coordinated colors create visual harmony";
        "Complementary tones enhance the overall aesthetic";
        "Balanced color palette ensures a cohesive look"] ]}.

(** [generateColorAnalysis(colorPreference)]; [None] is [undefined].  An
    inherited member is an object that counts as true, so it is taken for
    the options; it is a function, whose [length] is the number of its
    arguments, or [Object.prototype], which has no [length], and it has no
    member at the index that follows, a number or [NaN]. *)
Definition generateColorAnalysis (colorPreference : string) (r : Q) : option string :=
  match get_member analyses colorPreference with
  | Own options => at_index options (random_below r (Z.of_nat (length options)))
  | Inherited => None
  | Missing =>
      let options := default [] (analyses !! "") in
      at_index options (random_below r (Z.of_nat (length options)))
  end.

Definition notes : gmap string (list string) :=
  {[ "casual" :=
       ["Perfect for relaxed everyday activities and social gatherings";
        "Comfortable yet stylish for weekend outings";
        "Effortlessly chic for casual meetups and errands"];
     "formal" :=
       ["Sophisticated ensemble suitable for business meetings";
        "Elegant combination perfect for formal events";
        "Professional appearance that commands respect"];
     "party" :=
       ["Eye-catching outfit that stands out in social settings";
        "Fun and festive look perfect for celebrations";
        "Trendy combination that photographs beautifully"];
     "business" :=
       ["Professional attire that projects confidence and competence";
        "Polished look suitable for corporate environments";
        "Conservative yet stylish for workplace success"];
     "sports" :=
       ["Comfortable and functional for active pursuits";
        "Athletic-inspired look that prioritizes movement";
        "Practical combination for fitness and outdoor activities"];
     "wedding" :=
       ["Elegant and appropriate for special celebrations";
        "Refined look that respects the formal occasion";
        "Beautiful ensemble perfect for memorable moments"] ]}.

Definition typeNotes : gmap string string :=
  {[ "shirt" := "Classic shirt styling adds sophistication";
     "t-shirt" := "Casual t-shirt keeps the look relaxed and comfortable";
     "pants" := "Well-fitted pants create a polished silhouette";
     "jeans" := "Denim adds a casual, versatile element";
     "dress" := "Dress creates an instantly put-together appearance";
     "skirt" := "Skirt adds feminine flair and movement";
     "jacket" := "Layering piece adds structure and refinement";
     "sweater" := "Cozy sweater brings warmwarmth and texture" ]}.

(** [generateStyleNotes(occasion, clothingType)].  An inherited member
    under the name of the occasion has nothing at the index and leaves the
    default note.  An inherited member under the name of the clothing type
    counts as true and is appended as text; [inherited_text] is the text
    that the browser gives for it (the source text of a built-in function,
    [[object Object]] for [__proto__]). *)
Definition generateStyleNotes
    (inherited_text : string -> string) (occasion clothingType : string) (r : Q)
    : string :=
  let chosen :=
    match get_member notes occasion with
    | Own l => at_index l (random_below r (Z.of_nat (length l)))
    | Inherited => None
    | Missing => None
    end in
  let note :=
    match chosen with
    | Some n => if String.eqb n "" then "Stylish combination perfect for your selected occasion" else n
    | None => "Stylish combination perfect for your selected occasion"
    end in
  if String.eqb clothingType "" then note
  else
    match get_member typeNotes clothingType with
    | Own t => if String.eqb t "" then note else note +:+ ". " +:+ t +:+ "."
    | Inherited => note +:+ ". " +:+ inherited_text clothingType +:+ "."
    | Missing => note
    end.

Record combination := {
  comb_id : nat;
  title : string;
  rating : Z;
  confidence : Z;
  images : list imageData;
  colorAnalysis : option string;
  styleNotes : string
}.

(** What chance decides for one combination, in the order of the calls
    of [Math.random()]. *)
Record draws := {
  items_draw : Q;
  shuffled : list imageData;
  rating_draw : Q;
  confidence_draw : Q;
  analysis_draw : Q;
  notes_draw : Q
}.

(** [getRandomImages(count)], for the order that the sort leaves. *)
Definition getRandomImages (count : Z) (shuffled_images : list imageData)
    : list imageData :=
  take (Z.to_nat count) shuffled_images.

(** [createCombination(index, occasion, clothingType, colorPreference)] *)
Definition createCombination
    (inherited_text : string -> string)
    (m : matcher) (index : nat) (occasion clothingType colorPreference : string)
    (chance : draws) : combination :=
  let numItems :=
    Z.min (Z.max 2 (random_below (items_draw chance) 3 + 2))
          (Z.of_nat (length (uploadedImages m))) in
  let selectedImages := getRandomImages numItems (shuffled chance) in
  let rating := random_below (rating_draw chance) 2 + 4 in
  let confidence := random_below (confidence_draw chance) 16 + 80 in
  {| comb_id := index;
     title := "Combination " +:+ pretty index;
     rating := rating;
     confidence := confidence;
     images := selectedImages;
     colorAnalysis := generateColorAnalysis colorPreference (analysis_draw chance);
     styleNotes :=
       generateStyleNotes inherited_text occasion clothingType (notes_draw chance) |}.

(** [generateAICombinations(occasion, clothingType, colorPreference)] *)
Definition generateAICombinations
    (inherited_text : string -> string)
    (m : matcher) (occasion clothingType colorPreference : string)
    (chance : nat -> draws) : list combination :=
  let numCombinations :=
    Nat.min (Nat.max 2 (length (uploadedImages m) / 2)) 4 in
  map (fun i => createCombination inherited_text m (i + 1) occasion clothingType
                  colorPreference (chance i))
      (seq 0 numCombinations).

End StyleMatcherUi.

(** ** Vocabulary for the front ends *)

(** A value of [Math.random()]. *)
Definition unit_interval (r : Q) : Prop := (0 <= r /\ r < 1)%Q.

(** An entry of [script.js] made from an image file, under the file's name. *)
Definition image_entry (d : ScriptJs.fileData) : Prop :=
  ScriptJs.is_image (ScriptJs.file d) = true /\
  ScriptJs.name d = ScriptJs.file_name (ScriptJs.file d).

(** What every page of [script.js] satisfies: the display shows the working
    set, and only image files are loading or loaded. *)
Definition page_consistent (p : ScriptJs.page) : Prop :=
  ScriptJs.rendered p = ScriptJs.uploadedFiles p /\
  Forall image_entry (ScriptJs.uploadedFiles p) /\
  Forall (fun f => ScriptJs.is_image f = true) (ScriptJs.readers p).

(** The chance of [script.js] is fair: numbers of [Math.random()], and
    shuffles that reorder the working set. *)
Definition fair_chance (p : ScriptJs.page) (chance : nat -> ScriptJsUi.draws) : Prop :=
  forall i : nat,
    unit_interval (ScriptJsUi.count_draw (chance i)) /\
    unit_interval (ScriptJsUi.analysis_draw (chance i)) /\
    Permutation (ScriptJsUi.shuffled (chance i)) (ScriptJs.uploadedFiles p).

(** The same for [AIStyleMatcher]. *)
Definition fair_draws (m : StyleMatcher.matcher) (d : StyleMatcherUi.draws) : Prop :=
  unit_interval (StyleMatcherUi.items_draw d) /\
  unit_interval (StyleMatcherUi.rating_draw d) /\
  unit_interval (StyleMatcherUi.confidence_draw d) /\
  unit_interval (StyleMatcherUi.analysis_draw d) /\
  unit_interval (StyleMatcherUi.notes_draw d) /\
  Permutation (StyleMatcherUi.shuffled d) (StyleMatcher.uploadedImages m).

(** Draws that always give one half and leave the files in their order. *)
Definition even_chance (p : ScriptJs.page) (i : nat) : ScriptJsUi.draws :=
  {| ScriptJsUi.count_draw := 1 # 2;
     ScriptJsUi.shuffled := ScriptJs.uploadedFiles p;
     ScriptJsUi.analysis_draw := 1 # 2 |}.

Definition even_draws (m : StyleMatcher.matcher) : StyleMatcherUi.draws :=
  {| StyleMatcherUi.items_draw := 1 # 2;
     StyleMatcherUi.shuffled := StyleMatcher.uploadedImages m;
     StyleMatcherUi.rating_draw := 1 # 2;
     StyleMatcherUi.confidence_draw := 1 # 2;
     StyleMatcherUi.analysis_draw := 1 # 2;
     StyleMatcherUi.notes_draw := 1 # 2 |}.

(** The text that Chrome gives for the members that an object inherits. *)
Definition chrome_text (name : string) : string :=
  if String.eqb name "__proto__" then "[object Object]"
  else if String.eqb name "constructor" then "function Object() { [native code] }"
  else "function " +:+ name +:+ "() { [native code] }".

(** A page of [script.js] with one uploaded photograph. *)
Definition one_shirt_page : ScriptJs.page :=
  ScriptJs.onload (ScriptJs.processFiles ScriptJs.initial [shirt_photo])
                  0 "data:image/png;base64,AA" 1700000000000 0.5%float.

(** A matcher with one uploaded photograph. *)
Definition one_photo_matcher : StyleMatcher.matcher :=
  StyleMatcher.onload (StyleMatcher.processFiles StyleMatcher.new [photo])
                      0 "data:image/png;base64,AA" 1700000000000 0.5%float.

(** An image of [AIStyleMatcher] made from an image file, under the file's
    name. *)
Definition image_of_file (d : StyleMatcher.imageData) : Prop :=
  StyleMatcher.is_image (StyleMatcher.file d) = true /\
  StyleMatcher.name d = StyleMatcher.file_name (StyleMatcher.file d).

(** What every matcher satisfies: only image files are loading or loaded. *)
Definition only_images (m : StyleMatcher.matcher) : Prop :=
  Forall image_of_file (StyleMatcher.uploadedImages m) /\
  Forall (fun f => StyleMatcher.is_image f = true) (StyleMatcher.readers m).

(** The event adds or tries to add images: it is not a removal. *)
Definition adds (e : StyleMatcher.event) : Prop :=
  match e with
  | StyleMatcher.RemoveImage _ => False
  | _ => True
  end.

(** A matcher with twelve images and no reader at work. *)
Definition full_matcher : StyleMatcher.matcher :=
  StyleMatcher.run StyleMatcher.new
    (StyleMatcher.ProcessFiles (replicate 12 photo) ::
     map (fun k => StyleMatcher.Onload 0 "data:image/png;base64,AA"
                     (1700000000000 + Z.of_nat k) 0.5%float)
         (seq 0 12)).

(** * Properties of the backend *)

Example harmony_red_cyan :
  analyze_color_harmony ["#FF0000"; "#00FFFF"] = Return "complementary".
Proof. vm_compute. reflexivity. Qed.

(** Strings that are not colours of the data model: a channel that does
    not parse raises the error of [int]; a signed channel parses, and when
    the largest channel is 0 the saturation divides by zero. *)
Example harmony_of_other_strings :
  analyze_color_harmony ["#zzzzzz"; "#000000"] =
    Raise "invalid literal for int() with base 16: 'zz'" /\
  analyze_color_harmony ["#-f-f-f"; "#000000"] = Return "analogous" /\
  analyze_color_harmony ["#00-100"; "#ffffff"] = Raise "float division by zero".
Proof. repeat split; vm_compute; reflexivity. Qed.

(** The score of each label of the table (and of an unknown one) on each
    listed occasion (and on an unlisted one). *)
Example score_table :
  map (fun harmony =>
         map (harmony_occasion_score harmony)
             ["formal"; "casual"; "party"; "business"; "sports"; "wedding"; "picnic"])
      ["complementary"; "analogous"; "triadic"; "monochrome"; "diverse"; "plaid"]
  = [[85; 90; 90; 76; 85; 90; 85];
     [72; 85; 76; 81; 81; 76; 81];
     [68; 80; 72; 68; 76; 72; 76];
     [72; 76; 68; 72; 72; 68; 72];
     [65; 71; 71; 65; 67; 65; 67];
     [65; 66; 65; 65; 65; 65; 65]].
Proof. vm_compute. reflexivity. Qed.

(** The scores are computed here in exact arithmetic.  On every product
    of a base score and a multiplier, and on every quotient of a score from
    65 to 95 by 20, Python's binary64 arithmetic and the exact arithmetic
    truncate to the same integer. *)
Example score_arithmetic_agrees :
  Forall (fun c =>
            Forall (fun '(n, d) =>
                      float_trunc (float_of_Z c * (float_of_Z n / float_of_Z d))%float
                      = py_int (inject_Z c * (n # Z.to_pos d))%Q)
                   multiplier_fractions)
         base_scores /\
  Forall (fun k =>
            let s := 65 + Z.of_nat k in
            float_trunc (float_of_Z s / 20)%float = py_int (inject_Z s / 20)%Q)
         (seq 0 31).
Proof. split; repeat constructor. Qed.

(** ** Rational comparisons *)

Lemma Qleb_true (a b : Q) : Qleb a b = true <-> (a <= b)%Q.
Proof. apply Qle_bool_iff. Qed.

Lemma Qleb_false (a b : Q) : Qleb a b = false <-> (b < a)%Q.
Proof.
  rewrite <- not_true_iff_false, Qleb_true. split.
  - apply Qnot_le_lt.
  - apply Qlt_not_le.
Qed.

(** ** The order of floats *)

(** The comparisons of floats are those of their specifications
    ([Prim2SF]); on these they are settled by cases. *)
Ltac cmp_cases :=
  repeat match goal with
         | H : context [Z.compare ?a ?b] |- _ => destruct (Z.compare_spec a b)
         | |- context [Z.compare ?a ?b] => destruct (Z.compare_spec a b)
         | H : context [Pos.compare_cont Eq ?a ?b] |- _ =>
             change (Pos.compare_cont Eq a b) with (Pos.compare a b) in *;
             destruct (Pos.compare_spec a b)
         | |- context [Pos.compare_cont Eq ?a ?b] =>
             change (Pos.compare_cont Eq a b) with (Pos.compare a b) in *;
             destruct (Pos.compare_spec a b)
         end.

Ltac cmp_solve :=
  unfold SFltb, SFleb, SFeqb, SFcompare;
  try reflexivity; try discriminate;
  cmp_cases; subst; try reflexivity; try discriminate; intros; lia.

Lemma SFltb_true_leb (a b : spec_float) : SFltb a b = true -> SFleb a b = true.
Proof.
  unfold SFltb, SFleb. destruct (SFcompare a b) as [[]|]; try discriminate; reflexivity.
Qed.

Lemma SFltb_leb_false (a b : spec_float) : SFltb a b = true -> SFleb b a = false.
Proof.
  destruct a as [[]|[]| |[] m e], b as [[]|[]| |[] m' e']; cmp_solve.
Qed.

Lemma SFleb_trans (a b c : spec_float) :
  SFleb a b = true -> SFleb b c = true -> SFleb a c = true.
Proof.
  destruct a as [[]|[]| |[] m e], b as [[]|[]| |[] m' e'], c as [[]|[]| |[] m'' e''];
    cmp_solve.
Qed.

Lemma SFltb_false_leb (a b : spec_float) :
  wheel_sf a -> wheel_sf b -> SFltb a b = false -> SFleb b a = true.
Proof. intros [->|(m & e & ->)] [->|(m' & e' & ->)]; cmp_solve. Qed.

Lemma SFleb_refl (a : spec_float) : a <> S754_nan -> SFleb a a = true.
Proof.
  destruct a as [[]|[]| |[] m e]; intros Ha; try reflexivity; try congruence;
    unfold SFleb, SFcompare; rewrite Z.compare_refl;
    change (Pos.compare_cont Eq m m) with (Pos.compare m m);
    rewrite Pos.compare_refl; reflexivity.
Qed.


Lemma SFleb_antisym (a b : spec_float) :
  wheel_sf a -> wheel_sf b -> SFleb a b = true -> SFleb b a = true -> a = b.
Proof. intros [->|(m & e & ->)] [->|(m' & e' & ->)]; cmp_solve. Qed.

Lemma wheel_sf_not_nan (a : spec_float) : wheel_sf a -> a <> S754_nan.
Proof. intros [->|(m & e & ->)]; discriminate. Qed.

Lemma ltb_true_leb (a b : float) : PrimFloat.ltb a b = true -> PrimFloat.leb a b = true.
Proof. rewrite ltb_spec, leb_spec. apply SFltb_true_leb. Qed.

Lemma ltb_leb_false (a b : float) : PrimFloat.ltb a b = true -> PrimFloat.leb b a = false.
Proof. rewrite ltb_spec, leb_spec. apply SFltb_leb_false. Qed.

Lemma leb_trans (a b c : float) :
  PrimFloat.leb a b = true -> PrimFloat.leb b c = true -> PrimFloat.leb a c = true.
Proof. rewrite !leb_spec. apply SFleb_trans. Qed.

Lemma ltb_false_leb (a b : float) :
  wheel a -> wheel b -> PrimFloat.ltb a b = false -> PrimFloat.leb b a = true.
Proof. rewrite ltb_spec, leb_spec. apply SFltb_false_leb. Qed.

Lemma leb_refl (a : float) : wheel a -> PrimFloat.leb a a = true.
Proof. intros Ha. rewrite leb_spec. apply SFleb_refl, wheel_sf_not_nan, Ha. Qed.

Lemma leb_antisym (a b : float) :
  wheel a -> wheel b -> PrimFloat.leb a b = true -> PrimFloat.leb b a = true -> a = b.
Proof.
  rewrite !leb_spec. intros Ha Hb H1 H2. apply Prim2SF_inj.
  apply SFleb_antisym; assumption.
Qed.

(** ** The difference of two floats, up to its sign *)

Lemma SFabs_binary_round (prec emax : Z) (m : positive) (e : Z) :
  SFabs (binary_round prec emax true m e) = SFabs (binary_round prec emax false m e).
Proof.
  unfold binary_round, binary_round_aux.
  destruct (shl_align _ _ _) as [mz ez].
  destruct (shr_fexp _ _ _ _ _) as [mrs e'].
  destruct (shr_fexp _ _ _ _ _) as [mrs'' e''].
  destruct (shr_m mrs''); [reflexivity| |reflexivity].
  destruct (Z.leb _ _); reflexivity.
Qed.

Lemma SFabs_binary_normalize (prec emax : Z) (x e : Z) :
  SFabs (binary_normalize prec emax (- x) e false) =
  SFabs (binary_normalize prec emax x e false).
Proof.
  destruct x; simpl; [reflexivity| |symmetry]; apply SFabs_binary_round.
Qed.

Lemma SFabs_SFsub (prec emax : Z) (a b : spec_float) :
  SFabs (SFsub prec emax a b) = SFabs (SFsub prec emax b a).
Proof.
  destruct a as [[]|[]| |sa ma ea], b as [[]|[]| |sb mb eb]; try reflexivity.
  unfold SFsub. rewrite (Z.min_comm eb ea).
  rewrite <- SFabs_binary_normalize. f_equal. f_equal. lia.
Qed.

Lemma hue_difference_sym (a b : float) : hue_difference a b = hue_difference b a.
Proof.
  unfold hue_difference. apply Prim2SF_inj.
  rewrite !abs_spec, !sub_spec. apply SFabs_SFsub.
Qed.

(** ** Hues *)

Lemma forallb3_In {A} (cs : list A) (test : A -> A -> A -> bool) (r g b : A) :
  forallb3 cs test = true -> In r cs -> In g cs -> In b cs -> test r g b = true.
Proof.
  unfold forallb3. intros H Hr Hg Hb.
  rewrite List.forallb_forall in H. specialize (H r Hr). cbv beta in H.
  rewrite List.forallb_forall in H. specialize (H g Hg). cbv beta in H.
  rewrite List.forallb_forall in H. exact (H b Hb).
Qed.

(** The hue of each of the 256^3 colours of three bytes is computed
    without error and is on the wheel: every one of them is tried. *)
Lemma all_hues_on_wheel :
  forallb3 channel_values (fun r g b => hue_on_wheel (hue_of_channels r g b)) = true.
Proof. vm_compute. reflexivity. Qed.

Lemma channel_value_In (c : Z) :
  0 <= c <= 255 -> In (float_of_Z c / 255)%float channel_values.
Proof.
  intros Hc. unfold channel_values. apply in_map_iff.
  exists (Z.to_nat c). split.
  - rewrite Z2Nat.id by lia. reflexivity.
  - apply in_seq. lia.
Qed.

Lemma hue_of_rgb_on_wheel (rgb : Z * Z * Z) :
  byte_channels rgb -> exists h, hue_of_rgb rgb = Return h /\ on_wheel h = true.
Proof.
  destruct rgb as [[r g] b]. intros (Hr & Hg & Hb).
  pose proof (forallb3_In channel_values _ _ _ _ all_hues_on_wheel
                (channel_value_In r Hr) (channel_value_In g Hg)
                (channel_value_In b Hb)) as H.
  cbv beta in H. change (hue_of_channels _ _ _) with (hue_of_rgb (r, g, b)) in H.
  destruct (hue_of_rgb (r, g, b)) as [h|]; [|discriminate]. eauto.
Qed.

Lemma on_wheel_wheel (h : float) : on_wheel h = true -> wheel h.
Proof.
  unfold on_wheel, wheel. rewrite classify_spec.
  unfold SF64classify, SFclassify, wheel_sf.
  destruct (Prim2SF h) as [[]|[]| |[] m e]; try discriminate; eauto.
  destruct (Z.eqb _ _); discriminate.
Qed.

Lemma on_wheel_in_wheel (h : float) : on_wheel h = true -> in_wheel h.
Proof.
  intros H. split.
  - rewrite leb_spec. destruct (on_wheel_wheel h H) as [->|(m & e & ->)]; reflexivity.
  - unfold on_wheel in H. destruct (PrimFloat.classify h); try discriminate; exact H.
Qed.

(** ** Colours of the data model are read without error *)

Lemma hex_digit_bound (c : ascii) (d : Z) : hex_digit c = Some d -> 0 <= d <= 15.
Proof.
  unfold hex_digit. cbv zeta.
  repeat match goal with
         | |- context [if ?b then _ else _] => destruct b eqn:?
         end; intros [= <-]; lia.
Qed.

Lemma hex_digit_In (c : ascii) (d : Z) : hex_digit c = Some d -> In (c, d) hex_table.
Proof.
  destruct c as [[] [] [] [] [] [] [] []]; vm_compute;
    (discriminate || (intros [= <-]; tauto)).
Qed.

(** Two hexadecimal digits are read as the byte that they write. *)
Lemma int16_two_digits (c1 c2 : ascii) (d1 d2 : Z) :
  hex_digit c1 = Some d1 -> hex_digit c2 = Some d2 ->
  int16 (String c1 (String c2 EmptyString)) = Return (16 * d1 + d2).
Proof.
  intros H1 H2. apply hex_digit_In in H1, H2. unfold hex_table in H1, H2.
  simpl in H1, H2.
  repeat (destruct H1 as [[= <- <-]|H1];
          [repeat (destruct H2 as [[= <- <-]|H2]; [reflexivity|]); destruct H2|]).
  destruct H1.
Qed.

Lemma hex_to_rgb_bytes (s : string) :
  is_hex_color s = true -> exists rgb, hex_to_rgb s = Return rgb /\ byte_channels rgb.
Proof.
  unfold is_hex_color.
  repeat (destruct s as [|? s]; try discriminate).
  cbn [list_ascii_of_string forallb]. unfold is_hex_digit.
  rewrite !andb_true_iff. intros (_ & H1 & H2 & H3 & H4 & H5 & H6 & _).
  unfold hex_to_rgb. cbn [substring].
  repeat match goal with
         | H : match hex_digit ?c with _ => _ end = true |- _ =>
             let E := fresh "E" in
             destruct (hex_digit c) eqn:E; [clear H | discriminate H]
         end.
  repeat match goal with
         | H1 : hex_digit ?c1 = Some _, H2 : hex_digit ?c2 = Some _
           |- context [int16 (String ?c1 (String ?c2 EmptyString))] =>
             rewrite (int16_two_digits c1 c2 _ _ H1 H2)
         end.
  autounfold with py. eexists. split; [reflexivity|].
  repeat match goal with
         | H : hex_digit _ = Some _ |- _ => apply hex_digit_bound in H
         end.
  unfold byte_channels. lia.
Qed.

Lemma hex_to_rgb_total (s : string) :
  is_hex_color s = true -> exists rgb, hex_to_rgb s = Return rgb.
Proof. intros H. destruct (hex_to_rgb_bytes s H) as (rgb & Hrgb & _). eauto. Qed.

Lemma hues_of_canonical (colors : list string) :
  Forall (fun c => is_hex_color c = true) colors ->
  exists hues, hues_of colors = Return hues /\
               Forall2 hue_of_color colors hues /\
               Forall (fun h => on_wheel h = true) hues.
Proof.
  induction 1 as [|c colors Hc _ (hues & IH & Hf & Hw)].
  - exists []. repeat split; constructor.
  - destruct (hex_to_rgb_bytes c Hc) as (rgb & Hrgb & Hb).
    destruct (hue_of_rgb_on_wheel rgb Hb) as (h & Hh & Hwh).
    exists (h :: hues). split; [|split].
    + unfold hues_of in *. simpl. autounfold with py in *.
      rewrite Hrgb, Hh, IH. reflexivity.
    + constructor; [exists rgb; split; assumption | assumption].
    + constructor; assumption.
Qed.

Lemma hues_of_total (colors : list string) :
  Forall (fun c => is_hex_color c = true) colors ->
  exists hues, hues_of colors = Return hues.
Proof. intros H. destruct (hues_of_canonical colors H) as (hues & Hh & _). eauto. Qed.

(** ** Complementary pairs *)

Lemma complementary_pair_difference (a b : float) :
  complementary_pair a b = true <->
  PrimFloat.leb 160 (hue_difference a b) = true /\
  PrimFloat.leb (hue_difference a b) 200 = true.
Proof. unfold complementary_pair. cbv zeta. apply andb_true_iff. Qed.

Lemma has_complementary_pairs (hues : list float) :
  has_complementary hues = true <->
  exists (i j : nat) (a b : float),
    (i < j)%nat /\ hues !! i = Some a /\ hues !! j = Some b /\
    complementary_pair a b = true.
Proof.
  induction hues as [|h rest IH]; simpl.
  - split; [discriminate|]. intros (i & j & a & b & _ & Hi & _). discriminate.
  - rewrite orb_true_iff, existsb_exists, IH. split.
    + intros [(x & Hin & Hp)|(i & j & a & b & Hij & Hi & Hj & Hp)].
      * apply list_elem_of_In, list_elem_of_lookup in Hin as [j Hj].
        exists 0%nat, (S j), h, x. repeat split; [lia|assumption..].
      * exists (S i), (S j), a, b. repeat split; [lia|assumption..].
    + intros (i & j & a & b & Hij & Hi & Hj & Hp).
      destruct j as [|j]; [lia|]. destruct i as [|i].
      * left. injection Hi as <-. exists b. split; [|assumption].
        apply list_elem_of_In, list_elem_of_lookup. eauto.
      * right. exists i, j, a, b. repeat split; [lia|assumption..].
Qed.

Lemma has_complementary_opposite (hues : list float) :
  has_complementary hues = true <-> opposite_pair hues.
Proof.
  rewrite has_complementary_pairs. unfold opposite_pair.
  split; intros (i & j & a & b & Hij & Hi & Hj & Hp); exists i, j, a, b;
    (do 3 (split; [assumption|])); apply complementary_pair_difference, Hp.
Qed.

(** ** Hue range *)

Lemma py_max_is_max (x : float) (l : list float) :
  Forall wheel (x :: l) -> is_max (py_max x l) (x :: l).
Proof.
  revert x. induction l as [|y l IH]; intros x Hw; simpl.
  - split; [now left|]. intros z [<-|[]].
    apply leb_refl. inversion Hw; assumption.
  - inversion Hw as [|? ? Hx Hw']; subst. inversion Hw' as [|? ? Hy Hl]; subst.
    destruct (PrimFloat.ltb x y) eqn:E.
    + destruct (IH y) as [Hin Hub]; [constructor; assumption|]. split.
      * right. exact Hin.
      * intros z [<-|[<-|Hz]].
        -- apply leb_trans with y; [apply ltb_true_leb, E | apply Hub; now left].
        -- apply Hub. now left.
        -- apply Hub. now right.
    + destruct (IH x) as [Hin Hub]; [constructor; assumption|]. split.
      * destruct Hin as [<-|Hin]; [now left | right; now right].
      * intros z [<-|[<-|Hz]].
        -- apply Hub. now left.
        -- apply leb_trans with x;
             [apply ltb_false_leb; assumption | apply Hub; now left].
        -- apply Hub. now right.
Qed.

Lemma py_min_is_min (x : float) (l : list float) :
  Forall wheel (x :: l) -> is_min (py_min x l) (x :: l).
Proof.
  revert x. induction l as [|y l IH]; intros x Hw; simpl.
  - split; [now left|]. intros z [<-|[]].
    apply leb_refl. inversion Hw; assumption.
  - inversion Hw as [|? ? Hx Hw']; subst. inversion Hw' as [|? ? Hy Hl]; subst.
    destruct (PrimFloat.ltb y x) eqn:E.
    + destruct (IH y) as [Hin Hlb]; [constructor; assumption|]. split.
      * right. exact Hin.
      * intros z [<-|[<-|Hz]].
        -- apply leb_trans with y; [apply Hlb; now left | apply ltb_true_leb, E].
        -- apply Hlb. now left.
        -- apply Hlb. now right.
    + destruct (IH x) as [Hin Hlb]; [constructor; assumption|]. split.
      * destruct Hin as [<-|Hin]; [now left | right; now right].
      * intros z [<-|[<-|Hz]].
        -- apply Hlb. now left.
        -- apply leb_trans with x;
             [apply Hlb; now left | apply ltb_false_leb; assumption].
        -- apply Hlb. now right.
Qed.

Lemma is_max_unique (hi hi' : float) (l : list float) :
  Forall wheel l -> is_max hi l -> is_max hi' l -> hi = hi'.
Proof.
  intros Hw [Hin Hub] [Hin' Hub']. rewrite List.Forall_forall in Hw.
  apply leb_antisym; auto.
Qed.

Lemma is_min_unique (lo lo' : float) (l : list float) :
  Forall wheel l -> is_min lo l -> is_min lo' l -> lo = lo'.
Proof.
  intros Hw [Hin Hlb] [Hin' Hlb']. rewrite List.Forall_forall in Hw.
  apply leb_antisym; auto.
Qed.

Lemma hue_range_max_min (hues : list float) (hi lo : float) :
  Forall wheel hues -> is_max hi hues -> is_min lo hues ->
  hue_range hues = (hi - lo)%float.
Proof.
  destruct hues as [|h rest]; intros Hw Hhi Hlo; [destruct Hhi as [[] _]|].
  unfold hue_range.
  rewrite (is_max_unique _ _ _ Hw (py_max_is_max h rest Hw) Hhi).
  rewrite (is_min_unique _ _ _ Hw (py_min_is_min h rest Hw) Hlo).
  reflexivity.
Qed.

(** ** C1 *)

Lemma analyze_color_harmony_classify (colors : list string) (hues : list float) :
  (2 <= length colors)%nat -> hues_of colors = Return hues ->
  analyze_color_harmony colors = Return (classify_hues hues).
Proof.
  intros Hlen Hh. unfold analyze_color_harmony.
  destruct (Z.ltb_spec (Z.of_nat (length colors)) 2) as [Hlt|_]; [lia|].
  rewrite Hh. reflexivity.
Qed.

Lemma classify_hues_by_range (hues : list float) (r : float) :
  has_complementary hues = false -> hue_range hues = r ->
  (PrimFloat.leb r 60 = true -> classify_hues hues = "analogous") /\
  (PrimFloat.ltb 60 r = true -> PrimFloat.leb r 120 = true ->
   classify_hues hues = "triadic") /\
  (PrimFloat.ltb 120 r = true -> classify_hues hues = "diverse").
Proof.
  intros Hc <-. unfold classify_hues. rewrite Hc. cbv zeta.
  split; [|split].
  - intros ->. reflexivity.
  - intros H60 ->. rewrite (ltb_leb_false _ _ H60). reflexivity.
  - intros H120. rewrite (ltb_leb_false _ _ H120).
    destruct (PrimFloat.leb (hue_range hues) 60) eqn:E; [|reflexivity].
    assert (H : PrimFloat.leb (hue_range hues) 120 = true)
      by (apply leb_trans with 60%float; [exact E | reflexivity]).
    rewrite (ltb_leb_false _ _ H120) in H. discriminate.
Qed.

(** The colours [#00aaff] and [#ffaa00] have the hues 200 and 40, which
    lie 160 degrees apart on the wheel; the classifier computes a hue just
    below 200 for the first and answers [diverse]. *)
Lemma rounded_hue_misses_threshold :
  hex_to_rgb "#00aaff" = Return (0, 170, 255) /\
  hex_to_rgb "#ffaa00" = Return (255, 170, 0) /\
  (exact_hue (0, 170, 255)%Z == 200)%Q /\
  (exact_hue (255, 170, 0)%Z == 40)%Q /\
  (160 <= circular_difference 200 40 <= 200)%Q /\
  hues_of ["#00aaff"; "#ffaa00"] =
    Return [0x1.8ffffffffffffp+7%float; 40%float] /\
  analyze_color_harmony ["#00aaff"; "#ffaa00"] = Return "diverse".
Proof.
  repeat split; try (vm_compute; reflexivity); vm_compute; discriminate.
Qed.

(** C1.  The harmony classifier answers [monochrome] for fewer than two
    colours.  For canonical colours it computes one hue per colour, the
    binary64 result of [hue_of_rgb], a number with [0 <= h < 360].  For
    two or more colours it answers [complementary] as soon as two
    positions hold hues whose computed difference [abs(a - b)] lies in
    [160,200], whatever the other colours are; only when there is no such
    pair does it look at the computed range [hi - lo] between the largest
    and the smallest hue: at most 60 is [analogous], above 60 and at most
    120 is [triadic], above 120 is [diverse]. *)
Theorem harmony_classification (colors : list string) :
  ((length colors < 2)%nat -> analyze_color_harmony colors = Return "monochrome") /\
  (Forall (fun c => is_hex_color c = true) colors ->
   exists hues : list float,
     hues_of colors = Return hues /\
     Forall2 hue_of_color colors hues /\
     Forall in_wheel hues /\
     ((2 <= length colors)%nat ->
      (opposite_pair hues -> analyze_color_harmony colors = Return "complementary") /\
      (~ opposite_pair hues ->
       forall hi lo : float, is_max hi hues -> is_min lo hues ->
         (PrimFloat.leb (hi - lo) 60 = true ->
          analyze_color_harmony colors = Return "analogous") /\
         (PrimFloat.ltb 60 (hi - lo) = true -> PrimFloat.leb (hi - lo) 120 = true ->
          analyze_color_harmony colors = Return "triadic") /\
         (PrimFloat.ltb 120 (hi - lo) = true ->
          analyze_color_harmony colors = Return "diverse")))).
Proof.
  split.
  - intros Hlen. unfold analyze_color_harmony.
    destruct (Z.ltb_spec (Z.of_nat (length colors)) 2) as [_|Hge]; [reflexivity|lia].
  - intros Hc. destruct (hues_of_canonical colors Hc) as (hues & Hh & Hf & Hw).
    exists hues. split; [exact Hh|]. split; [exact Hf|]. split.
    { eapply List.Forall_impl; [|exact Hw]. apply on_wheel_in_wheel. }
    intros Hlen. rewrite (analyze_color_harmony_classify _ _ Hlen Hh). split.
    + intros Hp. apply has_complementary_opposite in Hp.
      unfold classify_hues. rewrite Hp. reflexivity.
    + intros Hn hi lo Hhi Hlo.
      assert (Hw' : Forall wheel hues)
        by (eapply List.Forall_impl; [|exact Hw]; apply on_wheel_wheel).
      assert (Hcp : has_complementary hues = false).
      { destruct (has_complementary hues) eqn:E; [|reflexivity].
        exfalso. apply Hn, has_complementary_opposite, E. }
      destruct (classify_hues_by_range hues (hi - lo)%float Hcp
                  (hue_range_max_min _ _ _ Hw' Hhi Hlo)) as (Ha & Ht & Hd).
      repeat split; intros; f_equal; auto.
Qed.

Lemma harmony_classification_witness :
  analyze_color_harmony ["#ff0000"; "#808000"; "#00ffff"] = Return "complementary" /\
  analyze_color_harmony ["#ff0000"; "#00ff00"] = Return "triadic" /\
  analyze_color_harmony ["#00aaff"; "#ffaa00"] = Return "diverse".
Proof.
  split; [|split].
  - destruct (harmony_classification ["#ff0000"; "#808000"; "#00ffff"]) as [_ H].
    destruct H as (hues & Hh & _ & _ & H); [repeat constructor|].
    vm_compute in Hh. injection Hh as <-.
    destruct H as [Hc _]; [simpl; lia|].
    apply Hc. exists 0%nat, 2%nat, 0%float, 180%float.
    repeat split; try lia; vm_compute; reflexivity.
  - destruct (harmony_classification ["#ff0000"; "#00ff00"]) as [_ H].
    destruct H as (hues & Hh & _ & _ & H); [repeat constructor|].
    vm_compute in Hh. injection Hh as <-.
    destruct H as [_ Hr]; [simpl; lia|].
    destruct (Hr) with (hi := 120%float) (lo := 0%float) as (_ & Ht & _).
    + intros (i & j & a & b & Hij & Hi & Hj & Hd & _).
      destruct i as [|[|i]]; destruct j as [|[|j]];
        try lia; try discriminate.
      injection Hi as <-. injection Hj as <-.
      vm_compute in Hd. discriminate.
    + split; [right; left; reflexivity|].
      intros x [<-|[<-|[]]]; vm_compute; reflexivity.
    + split; [left; reflexivity|].
      intros x [<-|[<-|[]]]; vm_compute; reflexivity.
    + apply Ht; vm_compute; reflexivity.
  - destruct (harmony_classification ["#00aaff"; "#ffaa00"]) as [_ H].
    destruct H as (hues & Hh & _ & _ & H); [repeat constructor|].
    vm_compute in Hh. injection Hh as <-.
    destruct H as [_ Hr]; [simpl; lia|].
    destruct (Hr) with (hi := 0x1.8ffffffffffffp+7%float) (lo := 40%float)
      as (_ & _ & Hd).
    + intros (i & j & a & b & Hij & Hi & Hj & Hd & _).
      destruct i as [|[|i]]; destruct j as [|[|j]];
        try lia; try discriminate.
      injection Hi as <-. injection Hj as <-.
      vm_compute in Hd. discriminate.
    + split; [left; reflexivity|].
      intros x [<-|[<-|[]]]; vm_compute; reflexivity.
    + split; [right; left; reflexivity|].
      intros x [<-|[<-|[]]]; vm_compute; reflexivity.
    + apply Hd; vm_compute; reflexivity.
Defined.

(** ** The score *)

Lemma harmony_scores_lookup (harmony : string) :
  default 70 (harmony_scores !! harmony) =
    if decide (harmony = "complementary") then 95
    else if decide (harmony = "analogous") then 90
    else if decide (harmony = "triadic") then 85
    else if decide (harmony = "monochrome") then 80
    else if decide (harmony = "diverse") then 75
    else 70.
Proof.
  unfold harmony_scores.
  repeat (case_decide; [subst; reflexivity|]).
  rewrite !lookup_insert_ne, lookup_singleton_ne by congruence.
  reflexivity.
Qed.

Lemma harmony_occasion_score_bounds (harmony occasion : string) :
  65 <= harmony_occasion_score harmony occasion <= 95.
Proof. unfold harmony_occasion_score. cbv zeta. lia. Qed.

Lemma calculate_outfit_score_cases
    (images_data : list image_data) (occasion color_preference : string) :
  calculate_outfit_score images_data occasion color_preference =
    match flat_map get_colors images_data with
    | [] => Return 70
    | all_colors =>
        match analyze_color_harmony all_colors with
        | Return harmony => Return (harmony_occasion_score harmony occasion)
        | Raise e => Raise e
        end
    end.
Proof.
  unfold calculate_outfit_score. cbv zeta.
  destruct (flat_map get_colors images_data); reflexivity.
Qed.

Lemma outfit_score_bounds_aux
    (images_data : list image_data) (occasion color_preference : string) (s : Z) :
  calculate_outfit_score images_data occasion color_preference = Return s ->
  65 <= s <= 95.
Proof.
  rewrite calculate_outfit_score_cases.
  destruct (flat_map get_colors images_data) as [|c cs].
  - intros [= <-]. lia.
  - destruct (analyze_color_harmony (c :: cs)); [|discriminate].
    intros [= <-]. apply harmony_occasion_score_bounds.
Qed.

(** C2.  Whatever the harmony label (one of the five of the table, or any
    other, which falls back to 70) and whatever the occasion (listed or
    not), the score is an integer between 65 and 95; so is every score that
    [calculate_outfit_score] returns. *)
Theorem outfit_score_bounds :
  (forall harmony : string,
     default 70 (harmony_scores !! harmony) =
       if decide (harmony = "complementary") then 95
       else if decide (harmony = "analogous") then 90
       else if decide (harmony = "triadic") then 85
       else if decide (harmony = "monochrome") then 80
       else if decide (harmony = "diverse") then 75
       else 70) /\
  (forall harmony occasion : string,
     65 <= harmony_occasion_score harmony occasion <= 95) /\
  (forall (images_data : list image_data) (occasion color_preference : string) (s : Z),
     calculate_outfit_score images_data occasion color_preference = Return s ->
     65 <= s <= 95).
Proof.
  split; [exact harmony_scores_lookup|]. split; [exact harmony_occasion_score_bounds|].
  exact outfit_score_bounds_aux.
Qed.

Lemma outfit_score_bounds_witness :
  calculate_outfit_score [red_cyan_image] "formal" "" = Return 85 /\ 65 <= 85 <= 95.
Proof.
  split; [vm_compute; reflexivity|].
  destruct outfit_score_bounds as (_ & _ & H).
  apply (H [red_cyan_image] "formal" "" 85). vm_compute. reflexivity.
Defined.

(** C9.  The colour preference has no influence on the score. *)
Theorem score_ignores_color_preference
    (images_data : list image_data) (occasion : string)
    (color_preference color_preference' : string) :
  calculate_outfit_score images_data occasion color_preference =
  calculate_outfit_score images_data occasion color_preference'.
Proof. rewrite !calculate_outfit_score_cases. reflexivity. Qed.

(** ** Generated combinations *)

Lemma py_mapM_In {A B} (f : A -> py B) (l : list A) (bs : list B) (b : B) :
  py_mapM f l = Return bs -> In b bs -> exists a, In a l /\ f a = Return b.
Proof.
  revert bs. induction l as [|a l IH]; intros bs; simpl; autounfold with py.
  - intros [= <-] [].
  - destruct (f a) as [b0|] eqn:Ea; [|discriminate].
    destruct (py_mapM f l) as [bs0|]; [|discriminate].
    intros [= <-] [<-|Hin].
    + exists a. split; [now left | assumption].
    + destruct (IH bs0 eq_refl Hin) as (a' & Ha' & Hf).
      exists a'. split; [now right | assumption].
Qed.

Lemma insert_by_score_In (c d : combination) (l : list combination) :
  In d (insert_by_score c l) <-> d = c \/ In d l.
Proof.
  induction l as [|e l IH]; simpl.
  - intuition congruence.
  - destruct (score c <? score e); simpl; rewrite ?IH; intuition congruence.
Qed.

Lemma sort_by_score_In (d : combination) (l : list combination) :
  In d (sort_by_score l) <-> In d l.
Proof.
  induction l as [|c l IH]; simpl; [reflexivity|].
  rewrite insert_by_score_In, IH. intuition congruence.
Qed.

Lemma make_combination_inv
    (images_data : list image_data) (occasion color_preference : string)
    (i : nat) (c : combination) :
  make_combination images_data occasion color_preference i = Return c ->
  images c = select_images images_data i /\
  calculate_outfit_score (images c) occasion color_preference = Return (score c) /\
  rating c = rating_of_score (score c) /\
  analyze_color_harmony (top_colors_of c) = Return (harmony c).
Proof.
  unfold make_combination, top_colors_of. cbv zeta. autounfold with py.
  destruct (calculate_outfit_score _ _ _) as [s|] eqn:Es; [|discriminate].
  destruct (analyze_color_harmony _) as [h|] eqn:Eh; [|discriminate].
  intros [= <-]. simpl. auto.
Qed.

Lemma generate_combinations_In (data : option generate_request) (c : combination) :
  In c (combinations_of (generate_combinations data)) ->
  exists (images_data : list image_data) (color_preference : string) (i : nat),
    make_combination images_data (occasion_of data) color_preference i = Return c.
Proof.
  destruct data as [d|]; simpl; [|intros []].
  unfold combinations_of, occasion_of. simpl.
  destruct (length (default [] (req_images d)) <? 2)%nat; simpl; [intros []|].
  destruct (py_mapM _ _) as [cs|] eqn:E; simpl; [|intros []].
  rewrite sort_by_score_In. intros Hin.
  destruct (py_mapM_In _ _ _ _ E Hin) as (i & _ & Hi).
  eauto.
Qed.

Lemma py_int_div20 (s : Z) : 0 <= s -> py_int (inject_Z s / 20) = s / 20.
Proof.
  intros Hs. unfold py_int, Qdiv, Qmult, Qinv, inject_Z. simpl.
  rewrite Z.mul_1_r. apply Z.quot_div_nonneg; lia.
Qed.

Lemma rating_of_score_clamp (s : Z) :
  0 <= s -> rating_of_score s = clamp (s / 20 + 1) 1 5.
Proof.
  intros Hs. unfold rating_of_score, clamp. rewrite py_int_div20 by assumption. lia.
Qed.

Lemma generated_score_bounds (data : option generate_request) (c : combination) :
  In c (combinations_of (generate_combinations data)) -> 65 <= score c <= 95.
Proof.
  intros Hin. apply generate_combinations_In in Hin as (imgs & cp & i & Hc).
  apply make_combination_inv in Hc as (_ & Hs & _).
  destruct outfit_score_bounds_aux with (1 := Hs). lia.
Qed.

(** C4.  The rating of every generated combination is
    [clamp(floor(score/20) + 1, 1, 5)] of its score; 65 gives 4, 80 gives 5,
    95 gives 5, and every score from 65 to 95 gives 4 or 5. *)
Theorem rating_from_score :
  (forall (data : option generate_request) (c : combination),
     In c (combinations_of (generate_combinations data)) ->
     rating c = clamp (score c / 20 + 1) 1 5) /\
  rating_of_score 65 = 4 /\ rating_of_score 80 = 5 /\ rating_of_score 95 = 5 /\
  (forall s : Z, 65 <= s <= 95 ->
     rating_of_score s = clamp (s / 20 + 1) 1 5 /\
     (rating_of_score s = 4 \/ rating_of_score s = 5)).
Proof.
  split; [|split; [|split; [|split]]]; try reflexivity.
  - intros data c Hin.
    pose proof (generated_score_bounds _ _ Hin) as Hb.
    apply generate_combinations_In in Hin as (imgs & cp & i & Hc).
    apply make_combination_inv in Hc as (_ & _ & -> & _).
    apply rating_of_score_clamp. lia.
  - intros s Hs. rewrite rating_of_score_clamp by lia. split; [reflexivity|].
    assert (3 <= s / 20 <= 4).
    { split; [apply Z.div_le_lower_bound; lia|].
      apply Z.lt_succ_r, Z.div_lt_upper_bound; lia. }
    unfold clamp. lia.
Qed.

Lemma rating_from_score_witness :
  exists c : combination,
    In c (combinations_of (generate_combinations (Some three_reds_request))) /\
    score c = 72 /\ rating c = clamp (score c / 20 + 1) 1 5.
Proof.
  eexists. split; [|split].
  - vm_compute. right. right. left. reflexivity.
  - reflexivity.
  - destruct rating_from_score as [H _].
    apply (H (Some three_reds_request)).
    vm_compute. right. right. left. reflexivity.
Defined.

(** ** C3 *)

(** C3 fails.  The three combinations of [three_reds_request] all carry the harmony
    field [analogous], yet the first scores 85 with five stars and the
    last 72 with four: the field and the occasion do not fix score and
    rating. *)
Lemma harmony_field_does_not_fix_score :
  map (fun c => (harmony c, score c, rating c))
      (combinations_of (generate_combinations (Some three_reds_request)))
  = [("analogous", 85, 5); ("analogous", 85, 5); ("analogous", 72, 4)] /\
  ~ (forall c1 c2 : combination,
       In c1 (combinations_of (generate_combinations (Some three_reds_request))) ->
       In c2 (combinations_of (generate_combinations (Some three_reds_request))) ->
       harmony c1 = harmony c2 ->
       score c1 = score c2 /\ rating c1 = rating c2).
Proof.
  split; [vm_compute; reflexivity|].
  intros H.
  remember (combinations_of (generate_combinations (Some three_reds_request)))
    as l eqn:El.
  vm_compute in El. subst l.
  match type of H with
  | forall c1 c2, In c1 [?x; _; ?z] -> _ =>
      destruct (H x z) as [Hs _]; [now left | right; right; now left | reflexivity |]
  end.
  discriminate Hs.
Qed.

(** C3, amended.  The score of a generated combination is fixed by the
    occasion and by the harmony label of all the colours of its images, the
    label that [calculate_outfit_score] computes for itself (with 70 when
    the images carry no colour at all); the rating is fixed by the score. *)
Theorem score_fixed_by_scoring_harmony
    (data1 data2 : option generate_request) (c1 c2 : combination) :
  In c1 (combinations_of (generate_combinations data1)) ->
  In c2 (combinations_of (generate_combinations data2)) ->
  occasion_of data1 = occasion_of data2 ->
  (all_colors_of c1 = [] <-> all_colors_of c2 = []) ->
  analyze_color_harmony (all_colors_of c1) = analyze_color_harmony (all_colors_of c2) ->
  score c1 = score c2 /\ rating c1 = rating c2.
Proof.
  intros H1 H2 Hocc Hempty Hharm.
  apply generate_combinations_In in H1 as (imgs1 & cp1 & i1 & Hc1).
  apply generate_combinations_In in H2 as (imgs2 & cp2 & i2 & Hc2).
  apply make_combination_inv in Hc1 as (_ & Hs1 & Hr1 & _).
  apply make_combination_inv in Hc2 as (_ & Hs2 & Hr2 & _).
  rewrite calculate_outfit_score_cases in Hs1, Hs2.
  fold (all_colors_of c1) in Hs1. fold (all_colors_of c2) in Hs2.
  assert (Hs : score c1 = score c2).
  { rewrite <- Hocc in Hs2.
    destruct (all_colors_of c1) as [|x xs] eqn:E1;
      destruct (all_colors_of c2) as [|y ys] eqn:E2.
    - congruence.
    - destruct Hempty as [He _]. discriminate (He eq_refl).
    - destruct Hempty as [_ He]. discriminate (He eq_refl).
    - rewrite <- Hharm in Hs2.
      destruct (analyze_color_harmony (x :: xs)); congruence. }
  split; [exact Hs|]. rewrite Hr1, Hr2, Hs. reflexivity.
Qed.

Lemma score_fixed_by_scoring_harmony_witness :
  exists c1 c2 : combination,
    In c1 (combinations_of (generate_combinations (Some three_reds_request))) /\
    In c2 (combinations_of (generate_combinations (Some three_reds_request))) /\
    comb_id c1 = 1 /\ comb_id c2 = 3 /\
    score c1 = score c2 /\ rating c1 = rating c2.
Proof.
  do 2 eexists.
  split; [vm_compute; left; reflexivity|].
  split; [vm_compute; right; left; reflexivity|].
  split; [reflexivity|]. split; [reflexivity|].
  apply (score_fixed_by_scoring_harmony
           (Some three_reds_request) (Some three_reds_request)).
  - vm_compute. left. reflexivity.
  - vm_compute. right. left. reflexivity.
  - reflexivity.
  - split; intros E; vm_compute in E; discriminate E.
  - vm_compute. reflexivity.
Defined.

(** When no image of a combination has more than two colours, the harmony
    field is the label the score was computed from. *)
Lemma top_colors_all_colors (c : combination) :
  Forall (fun img => (length (get_colors img) <= 2)%nat) (images c) ->
  top_colors_of c = all_colors_of c.
Proof.
  unfold top_colors_of, all_colors_of.
  induction 1 as [|img imgs Himg _ IH]; simpl; [reflexivity|].
  rewrite IH, take_ge by assumption. reflexivity.
Qed.

(** ** Colour extraction *)

(** C5 fails for an unreadable image: [cv2.imread] gives [None] and the
    guard returns the empty list, not the fallback pair. *)
Lemma unreadable_image_gives_no_colors :
  imread nothing_readable "broken.png" = None /\
  extract_dominant_colors nothing_readable "broken.png" 5 = [] /\
  extract_dominant_colors nothing_readable "broken.png" 5 <> fallback_colors.
Proof. repeat split. discriminate. Qed.

(** C5, amended.  The extractor never fails its caller.  An image that
    cannot be read gives the empty list; an image without pixels, and any
    image on which the clustering raises, gives the fallback pair. *)
Theorem extract_degenerate_input (L : libraries) (image_path : string) (num_colors : nat) :
  (imread L image_path = None ->
   extract_dominant_colors L image_path num_colors = []) /\
  (forall img : image,
     imread L image_path = Some img -> pixels img = [] ->
     extract_dominant_colors L image_path num_colors = fallback_colors) /\
  (forall (img rgb : image) (e : string),
     imread L image_path = Some img ->
     cvtColor_BGR2RGB img = Return rgb ->
     KMeans_cluster_centers L num_colors (pixels rgb) = Raise e ->
     extract_dominant_colors L image_path num_colors = fallback_colors).
Proof.
  unfold extract_dominant_colors. split; [|split].
  - intros ->. reflexivity.
  - intros img -> Hpx. unfold cvtColor_BGR2RGB. rewrite Hpx. reflexivity.
  - intros img rgb e -> ->. autounfold with py. intros ->. reflexivity.
Qed.

Lemma extract_degenerate_input_witness :
  extract_dominant_colors nothing_readable "broken.png" 5 = [] /\
  extract_dominant_colors empty_image_world "empty.png" 5 = fallback_colors.
Proof.
  split.
  - destruct (extract_degenerate_input nothing_readable "broken.png" 5) as [H _].
    apply H. reflexivity.
  - destruct (extract_degenerate_input empty_image_world "empty.png" 5) as (_ & H & _).
    apply (H {| height := 0; width := 0; pixels := [] |}); reflexivity.
Defined.

(** When the image is read and the clustering succeeds, the colours come
    out one per centre, in the order in which the library lists them. *)
Lemma extract_dominant_colors_success
    (L : libraries) (image_path : string) (num_colors : nat)
    (img rgb : image) (centers : list (Q * Q * Q)) :
  imread L image_path = Some img ->
  cvtColor_BGR2RGB img = Return rgb ->
  KMeans_cluster_centers L num_colors (pixels rgb) = Return centers ->
  extract_dominant_colors L image_path num_colors =
    map (fun c => hex_color_of (astype_int c)) centers.
Proof.
  unfold extract_dominant_colors. intros -> ->. autounfold with py.
  intros ->. reflexivity.
Qed.

(** With a clustering that returns [num_colors] centres, the result has at
    most [max num_colors 2] colours. *)
Lemma extract_dominant_colors_length
    (L : libraries) (image_path : string) (num_colors : nat) :
  (forall px centers,
     KMeans_cluster_centers L num_colors px = Return centers ->
     length centers = num_colors) ->
  (length (extract_dominant_colors L image_path num_colors) <= Nat.max num_colors 2)%nat.
Proof.
  intros Hk. unfold extract_dominant_colors.
  destruct (imread L image_path) as [img|]; [|simpl; lia].
  destruct (cvtColor_BGR2RGB img) as [rgb|]; autounfold with py; [|simpl; lia].
  destruct (KMeans_cluster_centers L num_colors (pixels rgb)) as [cs|] eqn:E;
    [|simpl; lia].
  rewrite length_map, (Hk _ _ E). lia.
Qed.

(** *** The order of the colours *)

(** C6 at an image whose clustering lists the largest cluster last: the
    image is read, its seven pixels are clustered into five centres, and
    the five colours come back in the order of the centres, the white of
    three pixels after four colours of one pixel each. *)
Theorem extract_order_is_clustering_order :
  (exists img : image,
     imread seven_pixel_world "seven.png" = Some img /\
     cvtColor_BGR2RGB img =
       Return {| height := 1; width := 7; pixels := seven_pixels_rgb |}) /\
  KMeans_cluster_centers seven_pixel_world 5 seven_pixels_rgb = Return five_centers /\
  extract_dominant_colors seven_pixel_world "seven.png" 5
    = ["#000000"; "#ff0000"; "#00ff00"; "#0000ff"; "#ffffff"] /\
  cluster_sizes five_centers seven_pixels_rgb = [1; 1; 1; 1; 3]%nat /\
  ~ largest_first (cluster_sizes five_centers seven_pixels_rgb).
Proof.
  split; [eexists; split; reflexivity|].
  split; [reflexivity|].
  split; [vm_compute; reflexivity|].
  assert (E : cluster_sizes five_centers seven_pixels_rgb = [1; 1; 1; 1; 3]%nat)
    by (vm_compute; reflexivity).
  split; [exact E|]. rewrite E. intros H.
  specialize (H 0 4 1 3)%nat. simpl in H.
  specialize (H ltac:(lia) eq_refl eq_refl). lia.
Qed.

(** ** /api/upload *)

(** Nothing is processed when no file has an allowed name. *)
Lemma process_files_none_allowed (L : libraries) (n : nat) (files : list FileStorage) :
  Forall (fun file => allowed_file (fs_filename file) = false) files ->
  process_files L n files = Return [].
Proof.
  induction 1 as [|file files Hf _ IH]; simpl; [reflexivity|].
  rewrite Hf, andb_false_r. exact IH.
Qed.

(** The two guards of the endpoint: a form without the field, an empty
    list, or only empty file names, are answered with 400 and an error. *)
Lemma upload_images_guards (L : libraries) (images_field : option (list FileStorage)) :
  match images_field with
  | None => True
  | Some files => Forall (fun file => fs_filename file = "") files
  end ->
  status (upload_images L images_field) = 400 /\
  exists msg, resp_body (upload_images L images_field) = ErrorBody msg.
Proof.
  destruct images_field as [files|]; simpl; [|eauto].
  intros Hall.
  assert (E : forallb (fun file => String.eqb (fs_filename file) "") files = true).
  { apply forallb_forall. intros file Hin. apply String.eqb_eq.
    rewrite Forall_forall in Hall. apply Hall, list_elem_of_In, Hin. }
  rewrite E, orb_true_r. simpl. eauto.
Qed.

(** What the endpoint answers when some file has a name and none of the
    names is allowed: a success without images. *)
Lemma upload_images_none_allowed (L : libraries) (files : list FileStorage) :
  Exists (fun file => fs_filename file <> "") files ->
  Forall (fun file => allowed_file (fs_filename file) = false) files ->
  upload_images L (Some files) =
    {| status := 200;
       resp_body := UploadBody true [] "Successfully processed 0 images" |}.
Proof.
  intros Hex Hall. unfold upload_images.
  assert (E1 : bool_decide (files = []) = false).
  { apply bool_decide_eq_false. intros ->. inversion Hex. }
  assert (E2 : forallb (fun file => String.eqb (fs_filename file) "") files = false).
  { apply not_true_iff_false. intros E. rewrite forallb_forall in E.
    apply Exists_exists in Hex as (file & Hin & Hne).
    apply Hne, String.eqb_eq, E, list_elem_of_In, Hin. }
  rewrite E1, E2, (process_files_none_allowed _ _ _ Hall). reflexivity.
Qed.

(** C7 at a form whose only file is [notes.txt]: the answer is 200 with
    [success] and an empty list of images, not 400 with an error. *)
Theorem upload_of_text_file_succeeds (L : libraries) :
  upload_images L (Some [{| fs_filename := "notes.txt"; fs_content := "list" |}]) =
    {| status := 200;
       resp_body := UploadBody true [] "Successfully processed 0 images" |}.
Proof.
  apply upload_images_none_allowed.
  - apply Exists_cons_hd. discriminate.
  - repeat constructor.
Qed.

(** ** Sums of floats that are numbers *)











(** * Properties of the front ends *)

(** ** [script.js] *)





(** ** [AIStyleMatcher] *)

(** [processFiles] and [removeImage] leave the list as long as it was or
    make it shorter. *)
Lemma start_readers_uploadedImages (m : StyleMatcher.matcher) (fs : list StyleMatcher.File) :
  StyleMatcher.uploadedImages (StyleMatcher.start_readers m fs) =
  StyleMatcher.uploadedImages m.
Proof.
  revert m. induction fs as [|f fs IH]; intros m; simpl; [reflexivity|].
  destruct (length (StyleMatcher.uploadedImages m) <? 12)%nat; rewrite IH; reflexivity.
Qed.

Lemma removeImage_shrinks (m : StyleMatcher.matcher) (imageId : float) :
  (length (StyleMatcher.uploadedImages (StyleMatcher.removeImage m imageId))
   <= length (StyleMatcher.uploadedImages m))%nat.
Proof. unfold StyleMatcher.removeImage. simpl. apply length_filter. Qed.

(** A load appends its image without looking at the length. *)
Lemma onload_grows
    (m : StyleMatcher.matcher) (k : nat) (result : string) (now : Z) (random : float) :
  (k < length (StyleMatcher.readers m))%nat ->
  length (StyleMatcher.uploadedImages (StyleMatcher.onload m k result now random)) =
  S (length (StyleMatcher.uploadedImages m)).
Proof.
  intros Hk. unfold StyleMatcher.onload.
  destruct (lookup_lt_is_Some_2 _ _ Hk) as [f ->]. simpl.
  rewrite length_app. simpl. lia.
Qed.

(** While the list is empty every file of a batch gets its reader. *)
Lemma start_readers_below_limit (m : StyleMatcher.matcher) (fs : list StyleMatcher.File) :
  (length (StyleMatcher.uploadedImages m) < 12)%nat ->
  StyleMatcher.readers (StyleMatcher.start_readers m fs) = StyleMatcher.readers m ++ fs.
Proof.
  revert m. induction fs as [|f fs IH]; intros m Hm; simpl.
  - rewrite app_nil_r. reflexivity.
  - destruct (Nat.ltb_spec (length (StyleMatcher.uploadedImages m)) 12) as [_|]; [|lia].
    rewrite IH by exact Hm. simpl. rewrite <- app_assoc. reflexivity.
Qed.

(** A batch of any size on a fresh page: every file gets its reader, and
    once all have loaded the list is as long as the batch. *)
Lemma loads_append_all (m : StyleMatcher.matcher) (n : nat) (es : list StyleMatcher.event) :
  length es = n ->
  Forall (fun e => exists result now random, e = StyleMatcher.Onload 0 result now random) es ->
  (n <= length (StyleMatcher.readers m))%nat ->
  length (StyleMatcher.uploadedImages (StyleMatcher.run m es)) =
  (length (StyleMatcher.uploadedImages m) + n)%nat.
Proof.
  revert m n. induction es as [|e es IH]; intros m n Hn Hes Hm; simpl in *.
  - subst n. lia.
  - destruct n as [|n]; [discriminate|]. injection Hn as Hn.
    inversion Hes as [|? ? (result & now & random & ->) Hes']; subst.
    unfold StyleMatcher.run in *. simpl.
    rewrite (IH _ (length es) eq_refl Hes').
    + rewrite onload_grows by lia. lia.
    + unfold StyleMatcher.onload.
      destruct (StyleMatcher.readers m) as [|r rs] eqn:E; simpl in *; [lia|].
      lia.
Qed.

(** C10 at a selection of thirteen image files on a fresh page: every file
    passes the length test before any of them has loaded, and after the
    thirteen loads the list holds thirteen images. *)
Theorem thirteen_images_uploaded :
  StyleMatcher.readers
    (StyleMatcher.processFiles StyleMatcher.new (replicate 13 photo))
    = replicate 13 photo /\
  length (StyleMatcher.uploadedImages
            (StyleMatcher.run StyleMatcher.new thirteen_at_once)) = 13%nat /\
  ~ (length (StyleMatcher.uploadedImages
               (StyleMatcher.run StyleMatcher.new thirteen_at_once)) <= 12)%nat.
Proof.
  split; [vm_compute; reflexivity|].
  assert (E : length (StyleMatcher.uploadedImages
                        (StyleMatcher.run StyleMatcher.new thirteen_at_once)) = 13%nat)
    by (vm_compute; reflexivity).
  split; [exact E|]. rewrite E. lia.
Qed.

(** * Further properties of the backend *)

(** ** Colours written by the extractor are read back by the classifier *)

Lemma format_02x_table :
  forallb (fun k =>
             let n := Z.of_nat k in
             match format_02x n with
             | String a (String b EmptyString) =>
                 match hex_digit a, hex_digit b with
                 | Some x, Some y => (x =? n / 16) && (y =? n mod 16)
                 | _, _ => false
                 end
             | _ => false
             end)
          (seq 0 256) = true.
Proof. vm_compute. reflexivity. Qed.

Lemma format_02x_digits (n : Z) :
  is_channel n ->
  exists a b : ascii,
    format_02x n = String a (String b EmptyString) /\
    hex_digit a = Some (n / 16) /\ hex_digit b = Some (n mod 16).
Proof.
  intros [Hlo Hhi].
  pose proof format_02x_table as H. rewrite forallb_forall in H.
  specialize (H (Z.to_nat n)).
  rewrite Z2Nat.id in H by assumption. cbv zeta in H.
  assert (Hin : In (Z.to_nat n) (seq 0 256)) by (apply in_seq; lia).
  specialize (H Hin).
  destruct (format_02x n) as [|a [|b [|]]]; try discriminate.
  destruct (hex_digit a) as [x|] eqn:Ea; [|discriminate].
  destruct (hex_digit b) as [y|] eqn:Eb; [|discriminate].
  apply andb_true_iff in H as [Hx Hy].
  apply Z.eqb_eq in Hx, Hy. subst x y. exists a, b.
  split; [reflexivity|]. split; assumption.
Qed.

Lemma hex_color_of_spec (r g b : Z) :
  is_channel r -> is_channel g -> is_channel b ->
  hex_to_rgb (hex_color_of (r, g, b)) = Return (r, g, b) /\
  is_hex_color (hex_color_of (r, g, b)) = true.
Proof.
  intros Hr Hg Hb.
  destruct (format_02x_digits r Hr) as (r1 & r2 & Er & Hr1 & Hr2).
  destruct (format_02x_digits g Hg) as (g1 & g2 & Eg & Hg1 & Hg2).
  destruct (format_02x_digits b Hb) as (b1 & b2 & Eb & Hb1 & Hb2).
  unfold hex_color_of. rewrite Er, Eg, Eb. split.
  - unfold hex_to_rgb. cbv [String.append]. cbn [substring].
    rewrite (int16_two_digits _ _ _ _ Hr1 Hr2), (int16_two_digits _ _ _ _ Hg1 Hg2),
      (int16_two_digits _ _ _ _ Hb1 Hb2).
    autounfold with py.
    rewrite (Z.div_mod r 16) at 3 by lia.
    rewrite (Z.div_mod g 16) at 3 by lia.
    rewrite (Z.div_mod b 16) at 3 by lia.
    do 3 f_equal; lia.
  - unfold is_hex_color. cbv [String.append]. cbn [list_ascii_of_string forallb].
    unfold is_hex_digit. rewrite Hr1, Hr2, Hg1, Hg2, Hb1, Hb2. reflexivity.
Qed.

(** X1.  Writing three channels as [#rrggbb] the way the extractor does and
    reading the string the way the classifier does gives the channels
    back. *)
Theorem hex_color_round_trip (r g b : Z) :
  is_channel r -> is_channel g -> is_channel b ->
  hex_to_rgb (hex_color_of (r, g, b)) = Return (r, g, b).
Proof. intros Hr Hg Hb. apply hex_color_of_spec; assumption. Qed.

Lemma hex_color_round_trip_witness :
  hex_to_rgb (hex_color_of (18, 52, 86)) = Return (18, 52, 86).
Proof.
  apply hex_color_round_trip; unfold is_channel; lia.
Defined.

Lemma py_int_in_pixel_range (q : Q) : in_pixel_range q -> is_channel (py_int q).
Proof.
  destruct q as [n d]. unfold in_pixel_range, is_channel, py_int, Qle, Qlt. simpl.
  intros [Hlo Hhi].
  rewrite Z.quot_div_nonneg by lia.
  split.
  - apply Z.div_pos; lia.
  - apply Z.lt_succ_r, Z.div_lt_upper_bound; lia.
Qed.

Lemma extracted_colors_canonical
    (L : libraries) (image_path : string) (num_colors : nat) :
  centers_in_range L ->
  Forall (fun c => is_hex_color c = true)
         (extract_dominant_colors L image_path num_colors).
Proof.
  intros HL. unfold extract_dominant_colors.
  destruct (imread L image_path) as [img|]; [|constructor].
  destruct (cvtColor_BGR2RGB img) as [rgb|]; autounfold with py;
    [|repeat constructor].
  destruct (KMeans_cluster_centers L num_colors (pixels rgb)) as [cs|] eqn:E;
    [|repeat constructor].
  apply HL in E. apply Forall_map. eapply Forall_impl; [exact E|].
  intros [[x y] z] (Hx & Hy & Hz). simpl in *.
  apply hex_color_of_spec; apply py_int_in_pixel_range; assumption.
Qed.

Lemma classify_hues_label (hues : list float) : In (classify_hues hues) harmony_labels.
Proof.
  unfold classify_hues, harmony_labels. cbv zeta.
  destruct (has_complementary hues); [simpl; tauto|].
  destruct (PrimFloat.leb (hue_range hues) 60); [simpl; tauto|].
  destruct (PrimFloat.leb (hue_range hues) 120); simpl; tauto.
Qed.

Lemma analyze_color_harmony_label (colors : list string) (label : string) :
  analyze_color_harmony colors = Return label -> In label harmony_labels.
Proof.
  unfold analyze_color_harmony.
  destruct (Z.of_nat (length colors) <? 2).
  - intros [= <-]. simpl. tauto.
  - destruct (hues_of colors) as [hues|]; autounfold with py; [|discriminate].
    intros [= <-]. apply classify_hues_label.
Qed.

Lemma analyze_color_harmony_total (colors : list string) :
  Forall (fun c => is_hex_color c = true) colors ->
  exists label, analyze_color_harmony colors = Return label.
Proof.
  intros Hc. unfold analyze_color_harmony.
  destruct (Z.of_nat (length colors) <? 2); [eauto|].
  destruct (hues_of_total colors Hc) as [hues ->]. autounfold with py. eauto.
Qed.

(** X2.  Whatever image is given, the colours that the extractor returns
    are accepted by the harmony classifier, which answers with one of its
    five labels: the empty list, the fallback pair and the colours written
    from cluster centres are all read without error, as long as the
    clustering puts its centres inside the pixel range [0,256). *)
Theorem extracted_colors_are_classified
    (L : libraries) (image_path : string) (num_colors : nat) :
  centers_in_range L ->
  Forall (fun c => is_hex_color c = true)
         (extract_dominant_colors L image_path num_colors) /\
  exists label : string,
    analyze_color_harmony (extract_dominant_colors L image_path num_colors)
      = Return label /\
    In label harmony_labels.
Proof.
  intros HL.
  pose proof (extracted_colors_canonical L image_path num_colors HL) as Hc.
  split; [exact Hc|].
  destruct (analyze_color_harmony_total _ Hc) as [label Hl].
  exists label. split; [exact Hl|]. eapply analyze_color_harmony_label, Hl.
Qed.

Lemma seven_pixel_world_in_range : centers_in_range seven_pixel_world.
Proof.
  intros k px centers. simpl. destruct (k =? 5)%nat; [|discriminate].
  intros [= <-]. unfold five_centers.
  repeat constructor; simpl; lra.
Defined.

Lemma extracted_colors_are_classified_witness :
  exists label : string,
    analyze_color_harmony (extract_dominant_colors seven_pixel_world "seven.png" 5)
      = Return label /\
    In label harmony_labels.
Proof.
  apply (extracted_colors_are_classified seven_pixel_world "seven.png" 5).
  exact seven_pixel_world_in_range.
Defined.

(** ** The score never passes 90 *)

Lemma occasion_multipliers_lookup (harmony occasion : string) :
  default 0.9%Q (occasion_multipliers harmony !! occasion) =
    if decide (occasion = "formal")
    then if str_in harmony ["complementary"; "monochrome"] then 0.9%Q else 0.8%Q
    else if decide (occasion = "casual") then 0.95%Q
    else if decide (occasion = "party")
    then if str_in harmony ["complementary"; "diverse"] then 0.95%Q else 0.85%Q
    else if decide (occasion = "business")
    then if str_in harmony ["monochrome"; "analogous"] then 0.9%Q else 0.8%Q
    else if decide (occasion = "sports") then 0.9%Q
    else if decide (occasion = "wedding")
    then if String.eqb harmony "complementary" then 0.95%Q else 0.85%Q
    else 0.9%Q.
Proof.
  unfold occasion_multipliers.
  repeat (case_decide; [subst; reflexivity|]).
  rewrite !lookup_insert_ne, lookup_singleton_ne by congruence.
  reflexivity.
Qed.

Lemma harmony_occasion_score_label (harmony occasion : string) :
  In harmony harmony_labels -> harmony_occasion_score harmony occasion <= 90.
Proof.
  intros Hin. unfold harmony_occasion_score. cbv zeta.
  rewrite occasion_multipliers_lookup.
  simpl in Hin.
  destruct Hin as [<-|[<-|[<-|[<-|[<-|[]]]]]];
    repeat case_decide; apply Z.leb_le; vm_compute; reflexivity.
Qed.

(** X3.  No score that [calculate_outfit_score] returns is above 90: the
    largest base score 95 meets at most the multiplier 0.95, so the upper
    end 95 of the clamp is never reached. *)
Theorem outfit_score_at_most_90
    (images_data : list image_data) (occasion color_preference : string) (s : Z) :
  calculate_outfit_score images_data occasion color_preference = Return s ->
  65 <= s <= 90.
Proof.
  intros Hs. split; [apply (outfit_score_bounds_aux _ _ _ _ Hs)|].
  rewrite calculate_outfit_score_cases in Hs.
  destruct (flat_map get_colors images_data) as [|c cs].
  - injection Hs as <-. lia.
  - destruct (analyze_color_harmony (c :: cs)) as [label|] eqn:E; [|discriminate].
    injection Hs as <-.
    apply harmony_occasion_score_label, (analyze_color_harmony_label _ _ E).
Qed.

Lemma outfit_score_at_most_90_witness :
  calculate_outfit_score [red_cyan_image] "casual" "" = Return 90 /\ 65 <= 90 <= 90.
Proof.
  split; [vm_compute; reflexivity|].
  apply (outfit_score_at_most_90 [red_cyan_image] "casual" "" 90).
  vm_compute. reflexivity.
Defined.

(** ** The order of the colours does not matter *)

Lemma complementary_pair_sym (a b : float) :
  complementary_pair a b = complementary_pair b a.
Proof.
  unfold complementary_pair. cbv zeta.
  fold (hue_difference a b). fold (hue_difference b a).
  rewrite (hue_difference_sym a b). reflexivity.
Qed.

Lemma existsb_Permutation {A} (f : A -> bool) (l l' : list A) :
  Permutation l l' -> existsb f l = existsb f l'.
Proof.
  induction 1 as [|x l l' _ IH|x y l|l l' l'' _ IH1 _ IH2]; simpl.
  - reflexivity.
  - rewrite IH. reflexivity.
  - destruct (f x), (f y); reflexivity.
  - congruence.
Qed.

Lemma has_complementary_Permutation (hues hues' : list float) :
  Permutation hues hues' -> has_complementary hues = has_complementary hues'.
Proof.
  induction 1 as [|x l l' Hp IH|x y l|l l' l'' _ IH1 _ IH2]; simpl.
  - reflexivity.
  - rewrite IH, (existsb_Permutation _ _ _ Hp). reflexivity.
  - rewrite (complementary_pair_sym y x).
    destruct (complementary_pair x y), (existsb (complementary_pair x) l),
      (existsb (complementary_pair y) l), (has_complementary l); reflexivity.
  - congruence.
Qed.

Lemma is_max_Permutation (m : float) (l l' : list float) :
  Permutation l l' -> is_max m l -> is_max m l'.
Proof.
  intros Hp [Hin Hub]. split.
  - eapply Permutation_in; eassumption.
  - intros x Hx. apply Hub. eapply Permutation_in; [symmetry|]; eassumption.
Qed.

Lemma is_min_Permutation (m : float) (l l' : list float) :
  Permutation l l' -> is_min m l -> is_min m l'.
Proof.
  intros Hp [Hin Hlb]. split.
  - eapply Permutation_in; eassumption.
  - intros x Hx. apply Hlb. eapply Permutation_in; [symmetry|]; eassumption.
Qed.

Lemma hue_range_Permutation (hues hues' : list float) :
  Forall wheel hues -> Permutation hues hues' -> hue_range hues = hue_range hues'.
Proof.
  intros Hw Hp. destruct hues as [|h rest].
  - apply Permutation_nil in Hp. subst. reflexivity.
  - pose proof (py_max_is_max h rest Hw) as Hmax.
    pose proof (py_min_is_min h rest Hw) as Hmin.
    rewrite (hue_range_max_min _ _ _ Hw Hmax Hmin).
    symmetry. apply hue_range_max_min.
    + eapply Permutation_Forall; eassumption.
    + eapply is_max_Permutation; eassumption.
    + eapply is_min_Permutation; eassumption.
Qed.

Lemma classify_hues_Permutation (hues hues' : list float) :
  Forall wheel hues -> Permutation hues hues' ->
  classify_hues hues = classify_hues hues'.
Proof.
  intros Hw Hp. unfold classify_hues. cbv zeta.
  rewrite (has_complementary_Permutation _ _ Hp).
  rewrite (hue_range_Permutation _ _ Hw Hp). reflexivity.
Qed.

Lemma py_mapM_Permutation {A B} (f : A -> py B) (l l' : list A) (bs : list B) :
  Permutation l l' -> py_mapM f l = Return bs ->
  exists bs', py_mapM f l' = Return bs' /\ Permutation bs bs'.
Proof.
  intros Hp. revert bs.
  induction Hp as [|x l l' _ IH|x y l|l l' l'' _ IH1 _ IH2]; intros bs; simpl;
    autounfold with py.
  - intros [= <-]. exists []. split; [reflexivity|constructor].
  - destruct (f x) as [b|]; [|discriminate].
    destruct (py_mapM f l) as [bs0|]; [|discriminate]. intros [= <-].
    destruct (IH bs0 eq_refl) as (bs' & -> & Hbs).
    exists (b :: bs'). split; [reflexivity|]. constructor. exact Hbs.
  - destruct (f y) as [b|]; [|discriminate].
    destruct (f x) as [a|]; [|discriminate].
    destruct (py_mapM f l) as [bs0|]; [|discriminate]. intros [= <-].
    exists (a :: b :: bs0). split; [reflexivity|]. constructor.
  - intros H. destruct (IH1 _ H) as (bs1 & H1 & Hp1).
    destruct (IH2 _ H1) as (bs2 & H2 & Hp2).
    exists bs2. split; [exact H2|]. etransitivity; eassumption.
Qed.

Lemma analyze_color_harmony_Permutation (colors colors' : list string) :
  Forall (fun c => is_hex_color c = true) colors ->
  Permutation colors colors' ->
  analyze_color_harmony colors' = analyze_color_harmony colors.
Proof.
  intros Hc Hp. unfold analyze_color_harmony.
  rewrite <- (Permutation_length Hp).
  destruct (Z.of_nat (length colors) <? 2); [reflexivity|].
  destruct (hues_of_canonical colors Hc) as (hues & Hh & _ & Hw).
  destruct (py_mapM_Permutation _ _ _ _ Hp Hh) as (hues' & Hh' & Hph).
  fold (hues_of colors') in Hh'. rewrite Hh, Hh'. autounfold with py.
  rewrite (classify_hues_Permutation hues hues'); [reflexivity| |exact Hph].
  eapply List.Forall_impl; [|exact Hw]. apply on_wheel_wheel.
Qed.

(** X4.  The harmony label of a list of canonical colours does not depend
    on the order of the list. *)
Theorem harmony_order_independent (colors colors' : list string) :
  Forall (fun c => is_hex_color c = true) colors ->
  Permutation colors colors' ->
  analyze_color_harmony colors' = analyze_color_harmony colors.
Proof. apply analyze_color_harmony_Permutation. Qed.

Lemma harmony_order_independent_witness :
  analyze_color_harmony ["#00ff00"; "#123456"; "#ff0000"] =
  analyze_color_harmony ["#ff0000"; "#00ff00"; "#123456"].
Proof.
  apply harmony_order_independent.
  - repeat constructor.
  - apply (Permutation_cons_append ["#00ff00"; "#123456"] "#ff0000").
Defined.

(** X5.  The score of a set of images with canonical colours does not
    depend on the order of the images (nor on the colour preference). *)
Theorem score_order_independent
    (images_data images_data' : list image_data)
    (occasion color_preference color_preference' : string) :
  Forall canonical_image images_data ->
  Permutation images_data images_data' ->
  calculate_outfit_score images_data' occasion color_preference' =
  calculate_outfit_score images_data occasion color_preference.
Proof.
  intros Hc Hp. rewrite !calculate_outfit_score_cases.
  assert (Hpc : Permutation (flat_map get_colors images_data)
                            (flat_map get_colors images_data'))
    by (apply Permutation_flat_map, Hp).
  assert (Hall : Forall (fun c => is_hex_color c = true) (flat_map get_colors images_data)).
  { clear Hp Hpc. induction Hc as [|img imgs Himg _ IH]; simpl; [constructor|].
    apply Forall_app. split; assumption. }
  pose proof (analyze_color_harmony_Permutation _ _ Hall Hpc) as Ha.
  destruct (flat_map get_colors images_data) as [|c cs];
    destruct (flat_map get_colors images_data') as [|c' cs'].
  - reflexivity.
  - apply Permutation_nil in Hpc. discriminate.
  - apply Permutation_sym, Permutation_nil in Hpc. discriminate.
  - rewrite Ha. reflexivity.
Qed.

Lemma score_order_independent_witness :
  calculate_outfit_score
    [plain_image "b.png" ["#123456"]; plain_image "a.png" ["#ff0000"; "#00ff00"]]
    "party" "bright" =
  calculate_outfit_score
    [plain_image "a.png" ["#ff0000"; "#00ff00"]; plain_image "b.png" ["#123456"]]
    "party" "".
Proof.
  apply score_order_independent.
  - repeat constructor.
  - constructor.
Defined.

(** ** The answer of /api/generate-combinations *)


Lemma py_mapM_total {A B} (f : A -> py B) (l : list A) :
  (forall a, In a l -> exists b, f a = Return b) ->
  exists bs, py_mapM f l = Return bs.
Proof.
  induction l as [|a l IH]; intros Hf; simpl; autounfold with py; [eauto|].
  destruct (Hf a (or_introl eq_refl)) as [b ->].
  destruct IH as [bs ->]; [intros x Hx; apply Hf; now right|]. eauto.
Qed.



Lemma insert_by_score_sorted (c : combination) (l : list combination) :
  StronglySorted score_ge l -> StronglySorted score_ge (insert_by_score c l).
Proof.
  induction 1 as [|d l Hs IH Hd]; simpl.
  - repeat constructor.
  - destruct (Z.ltb_spec (score c) (score d)) as [Hlt|Hge].
    + constructor; [exact IH|].
      rewrite Forall_forall. intros x Hx.
      apply list_elem_of_In, insert_by_score_In in Hx as [->|Hx].
      * unfold score_ge. lia.
      * rewrite Forall_forall in Hd. apply Hd, list_elem_of_In, Hx.
    + constructor; [constructor; assumption|].
      constructor; [unfold score_ge; lia|].
      eapply Forall_impl; [exact Hd|]. unfold score_ge. intros x Hx. lia.
Qed.

Lemma sort_by_score_sorted (l : list combination) :
  StronglySorted score_ge (sort_by_score l).
Proof.
  induction l as [|c l IH]; simpl; [constructor|].
  apply insert_by_score_sorted, IH.
Qed.

(** X6.  The combinations of every answer are listed by falling score. *)
Theorem combinations_sorted_by_score (data : option generate_request) :
  StronglySorted score_ge (combinations_of (generate_combinations data)).
Proof.
  destruct data as [d|]; simpl; [|constructor].
  unfold combinations_of. simpl.
  destruct (length (default [] (req_images d)) <? 2)%nat; simpl; [constructor|].
  destruct (py_mapM _ _); simpl; [apply sort_by_score_sorted | constructor].
Qed.

Lemma select_images_length (images_data : list image_data) (i : nat) :
  (2 <= length images_data)%nat -> (i < length images_data)%nat ->
  length (select_images images_data i) =
    Nat.min 4 (Nat.max 2 (length images_data - i)).
Proof.
  intros Hn Hi. unfold select_images. cbv zeta.
  destruct (Nat.ltb_spec
              (length (take (Nat.min 4 (Nat.max 2 (length images_data - i)))
                            (drop i images_data)))
              (Nat.min 4 (Nat.max 2 (length images_data - i)))) as [Hlt|Hge];
    rewrite ?length_app, !length_take, ?length_drop in *; lia.
Qed.

Lemma select_images_In (images_data : list image_data) (i : nat) (img : image_data) :
  In img (select_images images_data i) -> In img images_data.
Proof.
  unfold select_images. cbv zeta. intros Hin.
  assert (Hd : forall k, In img (take k (drop i images_data)) -> In img images_data).
  { intros k Hk. apply list_elem_of_In. apply list_elem_of_In in Hk.
    eapply subseteq_drop, subseteq_take, Hk. }
  assert (Ht : forall k, In img (take k images_data) -> In img images_data).
  { intros k Hk. apply list_elem_of_In. apply list_elem_of_In in Hk.
    eapply subseteq_take, Hk. }
  destruct (_ <? _)%nat; [|eauto].
  apply in_app_or in Hin as [Hin|Hin]; eauto.
Qed.

Lemma generate_combinations_In_request
    (d : generate_request) (c : combination) :
  In c (combinations_of (generate_combinations (Some d))) ->
  (2 <= length (default [] (req_images d)))%nat /\
  exists i : nat,
    (i < Nat.min 4 (length (default [] (req_images d))))%nat /\
    make_combination (default [] (req_images d))
      (default "casual" (req_occasion d)) (default "" (req_colorPreference d)) i
    = Return c.
Proof.
  unfold combinations_of. simpl.
  destruct (Nat.ltb_spec (length (default [] (req_images d))) 2) as [Hlt|Hge];
    simpl; [intros []|].
  destruct (py_mapM _ _) as [cs|] eqn:E; simpl; [|intros []].
  rewrite sort_by_score_In. intros Hin.
  destruct (py_mapM_In _ _ _ _ E Hin) as (i & Hi & Hc).
  apply in_seq in Hi. split; [exact Hge|]. exists i. split; [lia | exact Hc].
Qed.

(** X7.  Every combination of an answer has two, three or four images, and
    each of them is one of the images of the request. *)
Theorem combination_images_from_request
    (d : generate_request) (c : combination) :
  In c (combinations_of (generate_combinations (Some d))) ->
  (2 <= length (images c) <= 4)%nat /\
  forall img : image_data, In img (images c) -> In img (default [] (req_images d)).
Proof.
  intros Hin.
  apply generate_combinations_In_request in Hin as (Hn & i & Hi & Hc).
  apply make_combination_inv in Hc as (-> & _).
  split.
  - rewrite select_images_length by lia. lia.
  - intros img. apply select_images_In.
Qed.

Lemma combination_images_from_request_witness :
  exists c : combination,
    In c (combinations_of (generate_combinations (Some three_reds_request))) /\
    (2 <= length (images c) <= 4)%nat.
Proof.
  eexists. split.
  - vm_compute. left. reflexivity.
  - apply (combination_images_from_request three_reds_request).
    vm_compute. left. reflexivity.
Defined.

Lemma canonical_flat_map (f : image_data -> list string) (imgs : list image_data) :
  Forall (fun img => Forall (fun c => is_hex_color c = true) (f img)) imgs ->
  Forall (fun c => is_hex_color c = true) (flat_map f imgs).
Proof.
  induction 1 as [|img imgs Himg _ IH]; simpl; [constructor|].
  apply Forall_app. split; assumption.
Qed.

Lemma calculate_outfit_score_total
    (images_data : list image_data) (occasion color_preference : string) :
  Forall canonical_image images_data ->
  exists s, calculate_outfit_score images_data occasion color_preference = Return s.
Proof.
  intros Hc. rewrite calculate_outfit_score_cases.
  pose proof (canonical_flat_map get_colors images_data Hc) as Hall.
  destruct (flat_map get_colors images_data) as [|c cs]; [eauto|].
  destruct (analyze_color_harmony_total _ Hall) as [label ->]. eauto.
Qed.

Lemma make_combination_total
    (images_data : list image_data) (occasion color_preference : string) (i : nat) :
  Forall canonical_image images_data ->
  exists c, make_combination images_data occasion color_preference i = Return c /\
            comb_id c = Z.of_nat i + 1.
Proof.
  intros Hc. unfold make_combination. cbv zeta.
  assert (Hsel : Forall canonical_image (select_images images_data i)).
  { rewrite Forall_forall in Hc |- *. intros img Hin.
    apply Hc, list_elem_of_In, (select_images_In _ i), list_elem_of_In, Hin. }
  destruct (calculate_outfit_score_total _ occasion color_preference Hsel) as [s ->].
  autounfold with py.
  assert (Htop : Forall (fun c => is_hex_color c = true)
                   (flat_map (fun img => take 2 (get_colors img))
                             (select_images images_data i))).
  { apply canonical_flat_map. eapply Forall_impl; [exact Hsel|].
    intros img Himg. apply Forall_take, Himg. }
  destruct (analyze_color_harmony_total _ Htop) as [label ->].
  eexists. split; reflexivity.
Qed.




(** ** /api/upload on files that are accepted *)

Lemma process_files_saved (L : libraries) (n : nat) (files : list FileStorage) :
  (forall path content, save L path content = Return ()) ->
  exists imgs : list image_data,
    process_files L n files = Return imgs /\
    map original_name imgs =
      map fs_filename (filter (fun file => accepted file = true) files) /\
    Forall well_formed_upload imgs.
Proof.
  intros Hsave. revert n.
  induction files as [|file files IH]; intros n; simpl.
  - exists []. repeat split. constructor.
  - fold (accepted file). destruct (accepted file) eqn:Ea.
    + rewrite filter_cons_True by exact Ea.
      unfold process_upload. cbv zeta. rewrite Hsave. autounfold with py.
      destruct (IH (S (S n))) as (imgs & -> & Hnames & Hwf).
      eexists. split; [reflexivity|]. split.
      * simpl. rewrite Hnames. reflexivity.
      * constructor; [|exact Hwf]. split; [reflexivity|]. simpl.
        eexists. split; [reflexivity|]. rewrite length_map, length_take. reflexivity.
    + rewrite filter_cons_False by (rewrite Ea; discriminate). apply IH.
Qed.

(** X9.  When every file can be saved and some file has a name, the upload
    is answered with 200 and one record per accepted file (a named file
    with an allowed extension), in the order of the form and under its
    original name; every record has its address under [/uploads/] and at
    most three colour names, one for each of its first colours. *)
Theorem upload_images_accepted (L : libraries) (files : list FileStorage) :
  (forall path content, save L path content = Return ()) ->
  Exists (fun file => fs_filename file <> "") files ->
  status (upload_images L (Some files)) = 200 /\
  map original_name (images_of (upload_images L (Some files))) =
    map fs_filename (filter (fun file => accepted file = true) files) /\
  Forall well_formed_upload (images_of (upload_images L (Some files))).
Proof.
  intros Hsave Hex. unfold upload_images.
  assert (E1 : bool_decide (files = []) = false).
  { apply bool_decide_eq_false. intros ->. inversion Hex. }
  assert (E2 : forallb (fun file => String.eqb (fs_filename file) "") files = false).
  { apply not_true_iff_false. intros E. rewrite forallb_forall in E.
    apply Exists_exists in Hex as (file & Hin & Hne).
    apply Hne, String.eqb_eq, E, list_elem_of_In, Hin. }
  rewrite E1, E2. simpl.
  destruct (process_files_saved L 0 files Hsave) as (imgs & -> & Hnames & Hwf).
  unfold images_of. simpl. auto.
Qed.

Lemma upload_images_accepted_witness :
  map original_name
    (images_of (upload_images seven_pixel_world
       (Some [{| fs_filename := "notes.txt"; fs_content := "list" |};
              {| fs_filename := "Shirt.PNG"; fs_content := "bytes" |}])))
  = ["Shirt.PNG"].
Proof.
  apply (upload_images_accepted seven_pixel_world
           [{| fs_filename := "notes.txt"; fs_content := "list" |};
            {| fs_filename := "Shirt.PNG"; fs_content := "bytes" |}]).
  - reflexivity.
  - apply Exists_cons_hd. discriminate.
Defined.

Lemma process_files_not_saved
    (L : libraries) (e : string) (n : nat) (files : list FileStorage) :
  (forall path content, save L path content = Raise e) ->
  Exists (fun file => accepted file = true) files ->
  process_files L n files = Raise e.
Proof.
  intros Hsave. revert n.
  induction files as [|file files IH]; intros n Hex; [inversion Hex|].
  simpl. fold (accepted file). destruct (accepted file) eqn:Ea.
  - unfold process_upload. cbv zeta. rewrite Hsave. reflexivity.
  - apply IH. inversion Hex; subst; [congruence | assumption].
Qed.

(** X10.  When the files cannot be saved, an upload that holds an accepted
    file is answered with 500 and the error of the failed save; no record
    is returned. *)
Theorem upload_images_save_fails (L : libraries) (e : string) (files : list FileStorage) :
  (forall path content, save L path content = Raise e) ->
  Exists (fun file => accepted file = true) files ->
  upload_images L (Some files) =
    {| status := 500; resp_body := ErrorBody ("Upload failed: " +:+ e) |}.
Proof.
  intros Hsave Hex. unfold upload_images.
  assert (Hne : Exists (fun file => fs_filename file <> "") files).
  { eapply Exists_impl; [exact Hex|]. intros file Ha Hn.
    unfold accepted in Ha. rewrite Hn in Ha. discriminate. }
  assert (E1 : bool_decide (files = []) = false).
  { apply bool_decide_eq_false. intros ->. inversion Hex. }
  assert (E2 : forallb (fun file => String.eqb (fs_filename file) "") files = false).
  { apply not_true_iff_false. intros E. rewrite forallb_forall in E.
    apply Exists_exists in Hne as (file & Hin & Hn).
    apply Hn, String.eqb_eq, E, list_elem_of_In, Hin. }
  rewrite E1, E2. simpl.
  rewrite (process_files_not_saved L e 0 files Hsave Hex). reflexivity.
Qed.

Lemma upload_images_save_fails_witness :
  upload_images read_only_world
    (Some [{| fs_filename := "shirt.png"; fs_content := "bytes" |}]) =
    {| status := 500; resp_body := ErrorBody "Upload failed: PermissionError" |}.
Proof.
  apply (upload_images_save_fails read_only_world "PermissionError").
  - reflexivity.
  - apply Exists_cons_hd. reflexivity.
Defined.

(** ** File names *)

Lemma rsplit_dot_no_dot (s : string) : has_dot s = false -> rsplit_dot s = None.
Proof.
  unfold has_dot. induction s as [|c s IH];
    cbn [rsplit_dot existsb list_ascii_of_string]; [reflexivity|].
  rewrite orb_false_iff. intros [Hc Hs]. rewrite (IH Hs).
  rewrite Ascii.eqb_sym, Hc. reflexivity.
Qed.

Lemma rsplit_dot_last (name ext : string) :
  has_dot ext = false -> rsplit_dot (name +:+ "." +:+ ext) = Some ext.
Proof.
  intros Hext. induction name as [|c name IH].
  - change ("" +:+ "." +:+ ext) with (String "." ext). cbn [rsplit_dot].
    rewrite (rsplit_dot_no_dot _ Hext). reflexivity.
  - change (String c name +:+ "." +:+ ext) with (String c (name +:+ "." +:+ ext)).
    cbn [rsplit_dot]. rewrite IH. reflexivity.
Qed.

(** X11.  A file name without a dot is never allowed, and a name that ends
    in a dot and an extension is allowed exactly when the extension, in
    lower case, is one of the six of the table, whatever comes before the
    last dot. *)
Theorem allowed_file_by_last_extension :
  (forall filename : string, has_dot filename = false -> allowed_file filename = false) /\
  (forall name ext : string,
     has_dot ext = false ->
     allowed_file (name +:+ "." +:+ ext) = bool_decide (lower ext ∈ ALLOWED_EXTENSIONS)).
Proof.
  split.
  - intros filename H. unfold allowed_file. rewrite (rsplit_dot_no_dot _ H). reflexivity.
  - intros name ext H. unfold allowed_file. rewrite (rsplit_dot_last _ _ H). reflexivity.
Qed.

Lemma allowed_file_by_last_extension_witness :
  allowed_file ("holiday.photo" +:+ "." +:+ "JPeG") = true /\
  allowed_file ("shirt.png" +:+ "." +:+ "txt") = false /\
  allowed_file "png" = false.
Proof.
  destruct allowed_file_by_last_extension as [H1 H2].
  split; [|split].
  - rewrite H2; reflexivity.
  - rewrite H2; reflexivity.
  - apply H1. reflexivity.
Defined.

(** ** The clothing type *)

Lemma aspect_ratio_le (h : Z) (w p q : positive) :
  Qleb (inject_Z h / inject_Z (Z.pos w)) (Z.pos p # q) = (h * Z.pos q <=? Z.pos p * Z.pos w).
Proof.
  unfold Qleb, Qle_bool, Qdiv, Qmult, Qinv, inject_Z. simpl.
  rewrite Z.mul_1_r. reflexivity.
Qed.

Lemma aspect_ratio_ge (h : Z) (w p q : positive) :
  Qleb (Z.pos p # q) (inject_Z h / inject_Z (Z.pos w)) = (Z.pos p * Z.pos w <=? h * Z.pos q).
Proof.
  unfold Qleb, Qle_bool, Qdiv, Qmult, Qinv, inject_Z. simpl.
  rewrite Z.mul_1_r. reflexivity.
Qed.

(** X12.  The clothing type is [unknown] for a file that cannot be read and
    for an image of width 0.  For an image of height [h] and width [w > 0]
    it is [dress] when [h > 2w], [shirt] when [1.5w < h <= 2w], [pants]
    when [h < 0.8w], and [top] in between. *)
Theorem clothing_type_by_aspect_ratio (L : libraries) (image_path : string) :
  (imread L image_path = None -> detect_clothing_type L image_path = "unknown") /\
  (forall img : image,
     imread L image_path = Some img ->
     (width img = 0 -> detect_clothing_type L image_path = "unknown") /\
     (0 < width img ->
      (2 * width img < height img -> detect_clothing_type L image_path = "dress") /\
      (3 * width img < 2 * height img -> height img <= 2 * width img ->
       detect_clothing_type L image_path = "shirt") /\
      (5 * height img < 4 * width img -> detect_clothing_type L image_path = "pants") /\
      (4 * width img <= 5 * height img -> 2 * height img <= 3 * width img ->
       detect_clothing_type L image_path = "top"))).
Proof.
  unfold detect_clothing_type. split; [intros ->; reflexivity|].
  intros img ->. split; [intros ->; reflexivity|].
  intros Hw. destruct (width img) as [|w|w] eqn:Ew; try lia. cbv zeta.
  change 1.5%Q with (15 # 10). change 2.0%Q with (20 # 10). change 0.8%Q with (8 # 10).
  rewrite !aspect_ratio_le, aspect_ratio_ge. simpl Z.eqb. cbv iota.
  repeat split; intros;
    repeat match goal with
           | |- context [?a <=? ?b] => destruct (Z.leb_spec a b); simpl
           end; try reflexivity; lia.
Qed.

Lemma clothing_type_by_aspect_ratio_witness :
  detect_clothing_type seven_pixel_world "seven.png" = "pants" /\
  detect_clothing_type nothing_readable "broken.png" = "unknown".
Proof.
  split.
  - destruct (clothing_type_by_aspect_ratio seven_pixel_world "seven.png") as [_ H].
    destruct (H {| height := 1; width := 7; pixels := seven_pixels_bgr |} eq_refl)
      as [_ H'].
    destruct H' as (_ & _ & Hp & _); [simpl; lia|].
    apply Hp. simpl. lia.
  - destruct (clothing_type_by_aspect_ratio nothing_readable "broken.png") as [H _].
    apply H. reflexivity.
Defined.

(** ** How many colours the extractor returns *)

(** X13.  With a clustering that finds as many centres as it is asked for,
    the extractor returns no colour (unreadable file), the two fallback
    colours (a failure while processing), or exactly [num_colors] colours;
    so never more than [max(num_colors, 2)]. *)
Theorem extract_dominant_colors_count
    (L : libraries) (image_path : string) (num_colors : nat) :
  (forall px centers,
     KMeans_cluster_centers L num_colors px = Return centers ->
     length centers = num_colors) ->
  (extract_dominant_colors L image_path num_colors = [] /\
   imread L image_path = None) \/
  extract_dominant_colors L image_path num_colors = fallback_colors \/
  length (extract_dominant_colors L image_path num_colors) = num_colors.
Proof.
  intros Hk. unfold extract_dominant_colors.
  destruct (imread L image_path) as [img|]; [|left; split; reflexivity].
  right.
  destruct (cvtColor_BGR2RGB img) as [rgb|]; autounfold with py; [|left; reflexivity].
  destruct (KMeans_cluster_centers L num_colors (pixels rgb)) as [cs|] eqn:E;
    [|left; reflexivity].
  right. rewrite length_map. apply (Hk _ _ E).
Qed.

Lemma extract_dominant_colors_count_witness :
  length (extract_dominant_colors seven_pixel_world "seven.png" 5) = 5%nat.
Proof.
  destruct (extract_dominant_colors_count seven_pixel_world "seven.png" 5)
    as [[_ H]|[H|H]].
  - intros px centers. simpl. intros [= <-]. reflexivity.
  - discriminate H.
  - vm_compute in H. discriminate H.
  - exact H.
Defined.

(** ** /api/analyze-image *)

(** X14.  The single-image endpoint refuses a missing field and every file
    whose name is not allowed with 400.  For an allowed file that is saved
    and measured, but that OpenCV cannot read, it answers with a success
    that has no colours, black as dominant colour, diversity 0 and type
    [unknown]. *)
Theorem analyze_single_image_edges (L : libraries) (T : file_tools) :
  analyze_single_image L T None = AnalysisError 400 "No image provided" /\
  (forall file : FileStorage,
     allowed_file (fs_filename file) = false ->
     analyze_single_image L T (Some file) = AnalysisError 400 "Invalid file type") /\
  (forall (file : FileStorage) (w h : Z),
     allowed_file (fs_filename file) = true ->
     (forall path, imread L path = None) ->
     (forall path content, save L path content = Return ()) ->
     (forall path, Image_open_size T path = Return (w, h)) ->
     (forall path, os_remove T path = Return ()) ->
     analyze_single_image L T (Some file) =
       AnalysisOk {| an_colors := []; an_color_names := [];
                     an_clothing_type := "unknown";
                     an_width := w; an_height := h;
                     dominant_color := "#000000"; color_diversity := 0 |}).
Proof.
  split; [reflexivity|]. split.
  - intros file Hf. unfold analyze_single_image. rewrite Hf, orb_true_r. reflexivity.
  - intros file w h Hf Hread Hsave Hsize Hrm. unfold analyze_single_image.
    assert (Hname : String.eqb (fs_filename file) "" = false).
    { apply not_true_iff_false. intros E. apply String.eqb_eq in E.
      rewrite E in Hf. discriminate Hf. }
    rewrite Hname, Hf. cbn [orb negb]. cbv zeta.
    rewrite Hsave. autounfold with py.
    unfold extract_dominant_colors, detect_clothing_type.
    rewrite !Hread, Hsize, Hrm. reflexivity.
Qed.

Lemma analyze_single_image_edges_witness :
  analyze_single_image nothing_readable plain_tools
    (Some {| fs_filename := "notes.txt"; fs_content := "list" |})
    = AnalysisError 400 "Invalid file type" /\
  analyze_single_image nothing_readable plain_tools
    (Some {| fs_filename := "scan.bmp"; fs_content := "bytes" |})
    = AnalysisOk {| an_colors := []; an_color_names := [];
                    an_clothing_type := "unknown";
                    an_width := 640; an_height := 480;
                    dominant_color := "#000000"; color_diversity := 0 |}.
Proof.
  destruct (analyze_single_image_edges nothing_readable plain_tools) as (_ & H1 & H2).
  split.
  - apply H1. reflexivity.
  - apply H2; reflexivity.
Defined.

(** * Further properties of the front ends *)

(** ** [script.js]: what every page satisfies *)

Lemma processFiles_consistent (p : ScriptJs.page) (files : list ScriptJs.File) :
  page_consistent p -> page_consistent (ScriptJs.processFiles p files).
Proof.
  intros (Hr & Hu & Hq). unfold page_consistent, ScriptJs.processFiles. simpl.
  split; [exact Hr|]. split; [exact Hu|].
  apply Forall_app. split; [exact Hq|].
  apply Forall_forall. intros f Hf. apply list_elem_of_filter in Hf as [Hf _]. exact Hf.
Qed.

Lemma step_consistent (p : ScriptJs.page) (e : ScriptJsUi.event) :
  page_consistent p -> page_consistent (ScriptJsUi.step p e).
Proof.
  intros Hp. destruct e as [files|files|k result now random|id0]; simpl.
  - apply processFiles_consistent, Hp.
  - unfold ScriptJsUi.handleDrop. cbv zeta.
    destruct (0 <? _)%nat; simpl; [apply processFiles_consistent, Hp | exact Hp].
  - unfold ScriptJs.onload.
    destruct (ScriptJs.readers p !! k) as [f|] eqn:Ek; [|exact Hp].
    destruct Hp as (Hr & Hu & Hq). unfold page_consistent. simpl.
    split; [rewrite Hr; reflexivity|]. split.
    + apply Forall_app. split; [exact Hu|]. constructor; [|constructor].
      split; [|reflexivity]. simpl.
      rewrite Forall_forall in Hq. apply Hq. eapply list_elem_of_lookup_2, Ek.
    + apply Forall_delete, Hq.
  - destruct Hp as (Hr & Hu & Hq). unfold page_consistent, ScriptJs.removeImage. simpl.
    split; [reflexivity|]. split; [|exact Hq].
    rewrite Forall_forall in Hu |- *. intros d Hd.
    apply list_elem_of_filter in Hd as [_ Hd]. apply Hu, Hd.
Qed.

Lemma run_consistent (p : ScriptJs.page) (es : list ScriptJsUi.event) :
  page_consistent p -> page_consistent (ScriptJsUi.run p es).
Proof.
  revert p. induction es as [|e es IH]; intros p Hp; [exact Hp|].
  apply IH, step_consistent, Hp.
Qed.

(** X15.  Whatever files are selected or dropped, whichever readers load
    and whatever is removed, the page of [script.js] shows exactly its
    working set, and every entry of the working set is an image file under
    its own name: files of another type are never read. *)
Theorem script_page_consistent (es : list ScriptJsUi.event) :
  page_consistent (ScriptJsUi.run ScriptJs.initial es).
Proof.
  apply run_consistent. repeat split; constructor.
Qed.

(** X16.  Dropping files changes the page exactly as selecting the same
    files does; the drop shows an error exactly when none of the files is
    an image. *)
Theorem drop_is_select (p : ScriptJs.page) (files : list ScriptJs.File) :
  fst (ScriptJsUi.handleDrop p files) = ScriptJsUi.handleFileSelect p files /\
  (snd (ScriptJsUi.handleDrop p files) = None <->
   Exists (fun f => ScriptJs.is_image f = true) files).
Proof.
  unfold ScriptJsUi.handleDrop, ScriptJsUi.handleFileSelect, ScriptJs.processFiles.
  cbv zeta.
  destruct (filter (fun f => ScriptJs.is_image f = true) files) as [|f fs] eqn:E; simpl.
  - split.
    + destruct p as [u r d]. simpl. rewrite app_nil_r. reflexivity.
    + split; [discriminate|]. intros Hex. exfalso.
      apply Exists_exists in Hex as (f & Hin & Hf).
      assert (Hf' : f ∈ filter (fun f => ScriptJs.is_image f = true) files)
        by (apply list_elem_of_filter; split; assumption).
      rewrite E in Hf'. inversion Hf'.
  - split.
    + rewrite <- E. rewrite list_filter_filter.
      f_equal. f_equal. apply list_filter_iff. tauto.
    + split; [intros _|reflexivity].
      apply Exists_exists. exists f.
      assert (Hf : f ∈ filter (fun f => ScriptJs.is_image f = true) files)
        by (rewrite E; left).
      apply list_elem_of_filter in Hf as [Hf Hin]. split; assumption.
Qed.

(** X17.  The generate button of [script.js] is enabled exactly when
    [generateCombinations] passes its two checks and shows no error. *)
Theorem generate_button_matches_checks (p : ScriptJs.page) (occasion_value : string) :
  ScriptJsUi.generate_disabled p occasion_value = false <->
  ScriptJsUi.generateCombinations_error p occasion_value = None.
Proof.
  unfold ScriptJsUi.generate_disabled, ScriptJsUi.generateCombinations_error. cbv zeta.
  destruct (ScriptJs.uploadedFiles p) as [|d l]; simpl.
  - split; discriminate.
  - destruct (String.eqb occasion_value ""); simpl; split; (discriminate || reflexivity).
Qed.

(** ** Random numbers *)

Lemma Qfloor_scaled_range (r : Q) (n : Z) :
  unit_interval r -> 0 < n -> 0 <= Qfloor (r * inject_Z n) < n.
Proof.
  intros [Hlo Hhi] Hn.
  assert (Hn' : (inject_Z 0 < inject_Z n)%Q) by (rewrite <- Zlt_Qlt; exact Hn).
  change (inject_Z 0) with 0%Q in Hn'.
  split.
  - change 0 with (Qfloor 0). apply Qfloor_resp_le.
    apply Qmult_le_0_compat; [exact Hlo | apply Qlt_le_weak, Hn'].
  - rewrite Zlt_Qlt. eapply Qle_lt_trans; [apply Qfloor_le|].
    assert (H : (r * inject_Z n < 1 * inject_Z n)%Q)
      by (apply Qmult_lt_compat_r; assumption).
    rewrite Qmult_1_l in H. exact H.
Qed.

(** ** [script.js]: the mock combinations *)

Lemma script_getRandomImages_shape
    (p : ScriptJs.page) (r : Q) (sh : list ScriptJs.fileData) :
  unit_interval r -> Permutation sh (ScriptJs.uploadedFiles p) ->
  (Nat.min 2 (length (ScriptJs.uploadedFiles p))
   <= length (ScriptJsUi.getRandomImages p 2 4 r sh)
   <= Nat.min 4 (length (ScriptJs.uploadedFiles p)))%nat /\
  forall d, In d (ScriptJsUi.getRandomImages p 2 4 r sh) ->
            In d (ScriptJs.uploadedFiles p).
Proof.
  intros Hr Hsh. unfold ScriptJsUi.getRandomImages, ScriptJsUi.random_below. cbv zeta.
  change (4 - 2 + 1) with 3.
  pose proof (Qfloor_scaled_range r 3 Hr ltac:(lia)) as Hfl.
  set (fl := Qfloor (r * inject_Z 3)) in *. clearbody fl.
  split.
  - rewrite length_take, (Permutation_length Hsh). lia.
  - intros d Hd. eapply Permutation_in; [exact Hsh|].
    apply list_elem_of_In. apply list_elem_of_In in Hd.
    eapply subseteq_take, Hd.
Qed.

Lemma analyzeColors_defined (r : Q) :
  unit_interval r -> is_Some (ScriptJsUi.analyzeColors r).
Proof.
  intros Hr. unfold ScriptJsUi.analyzeColors, ScriptJsUi.random_below. cbv zeta.
  change (Z.of_nat (length _)) with 5.
  pose proof (Qfloor_scaled_range r 5 Hr ltac:(lia)) as Hfl.
  set (fl := Qfloor (r * inject_Z 5)) in *. clearbody fl.
  destruct (Z.ltb_spec fl 0) as [|_]; [lia|].
  apply lookup_lt_is_Some. simpl. lia.
Qed.

(** X18.  With a working set of [n] files, [generateMockCombinations] makes
    [min(n, 3)] combinations, numbered from 1, rated 5, 4 and 4.  Each
    shows between [min(2, n)] and [min(4, n)] files, all from the working
    set, and has a colour analysis. *)
Theorem mock_combinations_shape
    (p : ScriptJs.page) (occasionValue clothingTypeValue colorPreferenceValue : string)
    (chance : nat -> ScriptJsUi.draws) :
  fair_chance p chance ->
  let cs := ScriptJsUi.generateMockCombinations
              p occasionValue clothingTypeValue colorPreferenceValue chance in
  let n := length (ScriptJs.uploadedFiles p) in
  length cs = Nat.min n 3 /\
  map ScriptJsUi.comb_id cs = map (fun i => Z.of_nat i + 1) (seq 0 (Nat.min n 3)) /\
  map ScriptJsUi.rating cs = take (Nat.min n 3) [5; 4; 4] /\
  Forall (fun c =>
            (Nat.min 2 n <= length (ScriptJsUi.images c) <= Nat.min 4 n)%nat /\
            (forall d, In d (ScriptJsUi.images c) -> In d (ScriptJs.uploadedFiles p)) /\
            is_Some (ScriptJsUi.colorAnalysis c)) cs.
Proof.
  intros Hfair cs n. subst cs n.
  assert (Himg : forall i,
    (Nat.min 2 (length (ScriptJs.uploadedFiles p))
     <= length (ScriptJsUi.getRandomImages p 2 4 (ScriptJsUi.count_draw (chance i))
                                           (ScriptJsUi.shuffled (chance i)))
     <= Nat.min 4 (length (ScriptJs.uploadedFiles p)))%nat /\
    (forall d, In d (ScriptJsUi.getRandomImages p 2 4 (ScriptJsUi.count_draw (chance i))
                                                 (ScriptJsUi.shuffled (chance i))) ->
               In d (ScriptJs.uploadedFiles p)) /\
    is_Some (ScriptJsUi.analyzeColors (ScriptJsUi.analysis_draw (chance i)))).
  { intros i. destruct (Hfair i) as (Hc & Ha & Hs).
    destruct (script_getRandomImages_shape p _ _ Hc Hs) as [H1 H2].
    split; [exact H1|]. split; [exact H2|]. apply analyzeColors_defined, Ha. }
  unfold ScriptJsUi.generateMockCombinations, ScriptJsUi.scenarios.
  cbn [imap omap mbind option_bind].
  destruct (length (ScriptJs.uploadedFiles p)) as [|[|[|n]]] eqn:En;
    [ change (Nat.min 0 3) with 0%nat
    | change (Nat.min 1 3) with 1%nat
    | change (Nat.min 2 3) with 2%nat
    | rewrite (Nat.min_r (S (S (S n))) 3) by lia ];
    cbn -[ScriptJsUi.getRandomImages ScriptJsUi.analyzeColors
          ScriptJsUi.generateStyleNotes Nat.min];
    (split; [reflexivity|]); (split; [reflexivity|]); (split; [reflexivity|]);
    repeat (apply List.Forall_cons; [apply Himg|]); apply List.Forall_nil.
Qed.

Lemma mock_combinations_shape_witness :
  length (ScriptJsUi.generateMockCombinations one_shirt_page "party" "" ""
            (even_chance one_shirt_page)) = 1%nat.
Proof.
  apply (mock_combinations_shape one_shirt_page "party" "" ""
           (even_chance one_shirt_page)).
  intros i. repeat split; try (simpl; lra). reflexivity.
Defined.

(** ** The page of the backend *)

Lemma generate_combinations_status (d : generate_request) :
  (2 <= length (default [] (req_images d)))%nat ->
  (status (generate_combinations (Some d)) = 200 \/
   status (generate_combinations (Some d)) = 500) /\
  (Forall canonical_image (default [] (req_images d)) ->
   status (generate_combinations (Some d)) = 200).
Proof.
  intros Hge. unfold generate_combinations. cbv zeta.
  destruct (Nat.ltb_spec (length (default [] (req_images d))) 2) as [Hlt|_]; [lia|].
  split.
  - destruct (py_mapM _ _); simpl; [left | right]; reflexivity.
  - intros Hc.
    destruct (py_mapM_total
                (make_combination (default [] (req_images d))
                   (default "casual" (req_occasion d))
                   (default "" (req_colorPreference d)))
                (seq 0 (Nat.min 4 (length (default [] (req_images d)))))) as [cs ->].
    { intros i _. destruct (make_combination_total (default [] (req_images d))
        (default "casual" (req_occasion d)) (default "" (req_colorPreference d)) i Hc)
        as (c & Hmk & _). eauto. }
    reflexivity.
Qed.

(** X19.  On the page of the backend, a disabled generate button means
    that [generateCombinations] stops at one of its checks and sends
    nothing.  An enabled button means that a request is sent, and the
    backend never refuses it with 400; when the colours of the images are
    canonical it answers 200. *)
Theorem client_request_accepted
    (uploadedImages : list image_data)
    (occasion_value clothingType_value colorPreference_value : string) :
  (ClientJs.generate_disabled uploadedImages occasion_value = true ->
   exists message : string,
     ClientJs.generateCombinations_request uploadedImages occasion_value
       clothingType_value colorPreference_value = inl message) /\
  (ClientJs.generate_disabled uploadedImages occasion_value = false ->
   exists request : generate_request,
     ClientJs.generateCombinations_request uploadedImages occasion_value
       clothingType_value colorPreference_value = inr request /\
     req_images request = Some uploadedImages /\
     req_occasion request = Some occasion_value /\
     status (generate_combinations (Some request)) <> 400 /\
     (Forall canonical_image uploadedImages ->
      status (generate_combinations (Some request)) = 200)).
Proof.
  unfold ClientJs.generate_disabled, ClientJs.generateCombinations_request. cbv zeta.
  destruct (Nat.ltb_spec (length uploadedImages) 2) as [Hlt|Hge].
  - split; [eauto|].
    destruct (Nat.leb_spec 2 (length uploadedImages)); [lia|]. discriminate.
  - destruct (Nat.leb_spec 2 (length uploadedImages)) as [_|]; [|lia].
    destruct (String.eqb occasion_value ""); cbn [negb andb].
    + split; [eauto | discriminate].
    + split; [discriminate|]. intros _. eexists. split; [reflexivity|].
      split; [reflexivity|]. split; [reflexivity|].
      match goal with
      | |- context [generate_combinations (Some ?d)] =>
          destruct (generate_combinations_status d Hge) as [[H|H] H200]
      end.
      * split; [rewrite H; discriminate | exact H200].
      * split; [rewrite H; discriminate | exact H200].
Qed.

Lemma client_request_accepted_witness :
  exists request : generate_request,
    ClientJs.generateCombinations_request
      [plain_image "a.png" ["#ff0000"]; plain_image "b.png" ["#00ffff"]]
      "party" "" "" = inr request /\
    status (generate_combinations (Some request)) = 200.
Proof.
  destruct (client_request_accepted
              [plain_image "a.png" ["#ff0000"]; plain_image "b.png" ["#00ffff"]]
              "party" "" "") as [_ H].
  destruct (H eq_refl) as (request & Hr & _ & _ & _ & H200).
  exists request. split; [exact Hr|]. apply H200. repeat constructor.
Defined.




Lemma delete_first_new {A} (l : list A) (x : A) (rest : list A) :
  delete (length l) (l ++ x :: rest) = l ++ rest.
Proof. induction l as [|a l IH]; simpl; [reflexivity|]. f_equal. exact IH. Qed.

(** X21.  On the page of the backend, an answer that is an error leaves the
    list of images as it was, and after a successful answer with [k] records
    removing the entry at the first new position [k] times gives the old
    list back. *)
Theorem client_upload_then_remove
    (uploadedImages : list image_data) (result : response) :
  (forall error, resp_body result = ErrorBody error ->
     fst (ClientJs.receive_upload uploadedImages result) = uploadedImages) /\
  (forall imgs message, resp_body result = UploadBody true imgs message ->
     fst (ClientJs.receive_upload uploadedImages result) = uploadedImages ++ imgs /\
     Nat.iter (length imgs)
       (fun l => ClientJs.removeImage l (length uploadedImages))
       (fst (ClientJs.receive_upload uploadedImages result)) = uploadedImages).
Proof.
  unfold ClientJs.receive_upload. split.
  - intros error ->. reflexivity.
  - intros imgs message ->. simpl. split; [reflexivity|].
    unfold ClientJs.removeImage.
    induction imgs as [|x imgs IH]; [apply app_nil_r|].
    cbn [length]. rewrite Nat.iter_succ_r. cbv beta.
    rewrite delete_first_new. exact IH.
Qed.

Lemma client_upload_then_remove_witness :
  Nat.iter 2 (fun l => ClientJs.removeImage l 1)
    (fst (ClientJs.receive_upload [red_cyan_image]
            {| status := 200;
               resp_body := UploadBody true
                 [plain_image "a.png" ["#ff0000"]; plain_image "b.png" []]
                 "Successfully processed 2 images" |}))
  = [red_cyan_image].
Proof.
  destruct (client_upload_then_remove [red_cyan_image]
              {| status := 200;
                 resp_body := UploadBody true
                   [plain_image "a.png" ["#ff0000"]; plain_image "b.png" []]
                   "Successfully processed 2 images" |}) as [_ H].
  destruct (H _ _ eq_refl) as [_ H']. exact H'.
Defined.

(** ** [AIStyleMatcher]: the limit, the button and the combinations *)

Lemma start_readers_at_limit (m : StyleMatcher.matcher) (fs : list StyleMatcher.File) :
  (12 <= length (StyleMatcher.uploadedImages m))%nat ->
  StyleMatcher.start_readers m fs = m.
Proof.
  intros Hm. induction fs as [|f fs IH]; simpl; [reflexivity|].
  destruct (Nat.ltb_spec (length (StyleMatcher.uploadedImages m)) 12); [lia|]. exact IH.
Qed.

(** X22.  [processFiles] treats a batch as a whole.  When the list already
    holds 12 images or more, nothing happens at all.  When it holds fewer,
    every image file of the batch gets a reader, however many there are,
    and no file of another type does; the list itself is untouched until
    the readers load. *)
Theorem processFiles_whole_batch (m : StyleMatcher.matcher) (files : list StyleMatcher.File) :
  ((12 <= length (StyleMatcher.uploadedImages m))%nat ->
   StyleMatcher.processFiles m files = m) /\
  ((length (StyleMatcher.uploadedImages m) < 12)%nat ->
   StyleMatcher.processFiles m files =
     {| StyleMatcher.uploadedImages := StyleMatcher.uploadedImages m;
        StyleMatcher.readers :=
          StyleMatcher.readers m ++
          filter (fun f => StyleMatcher.is_image f = true) files |}).
Proof.
  unfold StyleMatcher.processFiles. cbv zeta. split; intros Hm.
  - apply start_readers_at_limit, Hm.
  - pose proof (start_readers_uploadedImages m
                  (filter (fun f => StyleMatcher.is_image f = true) files)) as Hu.
    pose proof (start_readers_below_limit m
                  (filter (fun f => StyleMatcher.is_image f = true) files) Hm) as Hr.
    destruct (StyleMatcher.start_readers m _) as [u r]. simpl in *. subst. reflexivity.
Qed.

Lemma processFiles_whole_batch_witness :
  StyleMatcher.readers
    (StyleMatcher.processFiles one_photo_matcher (replicate 20 photo))
  = replicate 20 photo.
Proof.
  destruct (processFiles_whole_batch one_photo_matcher (replicate 20 photo)) as [_ H].
  rewrite H; [reflexivity | simpl; lia].
Defined.

(** X23.  The generate button of [AIStyleMatcher] is enabled exactly when
    [handleFormSubmit] shows no alert and goes on to generate. *)
Theorem matcher_button_matches_checks (m : StyleMatcher.matcher) (occasion : string) :
  StyleMatcherUi.generate_disabled m occasion = false <->
  StyleMatcherUi.handleFormSubmit_alert m occasion = None.
Proof.
  unfold StyleMatcherUi.generate_disabled, StyleMatcherUi.handleFormSubmit_alert.
  cbv zeta.
  destruct (StyleMatcher.uploadedImages m) as [|d l]; simpl.
  - split; discriminate.
  - destruct (String.eqb occasion ""); simpl; split; (discriminate || reflexivity).
Qed.

Lemma not_inherited (key : string) :
  ~ In key StyleMatcherUi.inherited_names ->
  bool_decide (key ∈ StyleMatcherUi.inherited_names) = false.
Proof.
  intros H. apply bool_decide_eq_false_2. intros Hin. apply H, list_elem_of_In, Hin.
Qed.

Lemma analyses_options (colorPreference : string) :
  ~ In colorPreference StyleMatcherUi.inherited_names ->
  exists a b c : string,
    default (default [] (StyleMatcherUi.analyses !! ""))
            (StyleMatcherUi.analyses !! colorPreference) = [a; b; c] /\
    (forall r : Q,
       StyleMatcherUi.generateColorAnalysis colorPreference r =
       StyleMatcherUi.at_index [a; b; c] (StyleMatcherUi.random_below r 3)) /\
    (StyleMatcherUi.analyses !! colorPreference = None ->
     [a; b; c] = default [] (StyleMatcherUi.analyses !! "")).
Proof.
  intros Hn. unfold StyleMatcherUi.generateColorAnalysis, StyleMatcherUi.get_member.
  rewrite (not_inherited _ Hn). clear Hn.
  unfold StyleMatcherUi.analyses.
  destruct (decide (colorPreference = "bright")) as [->|?];
    [do 3 eexists; split; [reflexivity|]; split; [reflexivity | discriminate]|].
  destruct (decide (colorPreference = "dark")) as [->|?];
    [do 3 eexists; split; [reflexivity|]; split; [reflexivity | discriminate]|].
  destruct (decide (colorPreference = "neutral")) as [->|?];
    [do 3 eexists; split; [reflexivity|]; split; [reflexivity | discriminate]|].
  destruct (decide (colorPreference = "pastel")) as [->|?];
    [do 3 eexists; split; [reflexivity|]; split; [reflexivity | discriminate]|].
  destruct (decide (colorPreference = "")) as [->|?];
    [do 3 eexists; split; [reflexivity|]; split; [reflexivity | discriminate]|].
  rewrite !(lookup_insert_ne _ _ colorPreference), lookup_singleton_ne by congruence.
  do 3 eexists. split; [reflexivity|]. split; reflexivity.
Qed.

Lemma at_index_three (a b c : string) (r : Q) :
  unit_interval r ->
  exists sentence : string,
    StyleMatcherUi.at_index [a; b; c] (StyleMatcherUi.random_below r 3) = Some sentence /\
    In sentence [a; b; c].
Proof.
  intros Hr. unfold StyleMatcherUi.at_index, StyleMatcherUi.random_below.
  pose proof (Qfloor_scaled_range r 3 Hr ltac:(lia)) as Hfl.
  set (fl := Qfloor (r * inject_Z 3)) in *. clearbody fl.
  destruct (Z.ltb_spec fl 0) as [|_]; [lia|].
  assert (Hi : (Z.to_nat fl < 3)%nat) by lia.
  destruct (Z.to_nat fl) as [|[|[|k]]]; [| | |lia]; simpl;
    eexists; (split; [reflexivity|]); tauto.
Qed.

Lemma color_analysis_inherited (colorPreference : string) (r : Q) :
  In colorPreference StyleMatcherUi.inherited_names ->
  StyleMatcherUi.generateColorAnalysis colorPreference r = None.
Proof.
  unfold StyleMatcherUi.inherited_names. simpl.
  intros H. repeat (destruct H as [<-|H]; [reflexivity|]). destruct H.
Qed.

Lemma color_analysis_total (colorPreference : string) (r : Q) :
  unit_interval r ->
  ~ In colorPreference StyleMatcherUi.inherited_names ->
  exists sentence : string,
    StyleMatcherUi.generateColorAnalysis colorPreference r = Some sentence.
Proof.
  intros Hr Hn.
  destruct (analyses_options colorPreference Hn) as (a & b & c & _ & -> & _).
  destruct (at_index_three a b c r Hr) as (s & Hs & _). eauto.
Qed.

(** X24.  For a colour preference that is not a name inherited from
    [Object.prototype], the colour analysis of [AIStyleMatcher] is never
    undefined: it is one of the three sentences listed for the colour
    preference, and for a preference that has no list it is one of the
    three default sentences.  For an inherited name ([toString],
    [constructor], [__proto__] and the like) it is undefined. *)
Theorem color_analysis_defined (colorPreference : string) (r : Q) :
  unit_interval r ->
  (~ In colorPreference StyleMatcherUi.inherited_names ->
   exists sentence : string,
     StyleMatcherUi.generateColorAnalysis colorPreference r = Some sentence /\
     In sentence (default (default [] (StyleMatcherUi.analyses !! ""))
                          (StyleMatcherUi.analyses !! colorPreference)) /\
     (StyleMatcherUi.analyses !! colorPreference = None ->
      In sentence (default [] (StyleMatcherUi.analyses !! "")))) /\
  (In colorPreference StyleMatcherUi.inherited_names ->
   StyleMatcherUi.generateColorAnalysis colorPreference r = None).
Proof.
  intros Hr. split; [|apply color_analysis_inherited].
  intros Hn.
  destruct (analyses_options colorPreference Hn) as (a & b & c & -> & -> & Hdef).
  destruct (at_index_three a b c r Hr) as (s & Hs & Hin).
  exists s. split; [exact Hs|]. split; [exact Hin|].
  intros Hnone. rewrite <- (Hdef Hnone). exact Hin.
Qed.

Lemma color_analysis_defined_witness :
  (exists sentence : string,
     StyleMatcherUi.generateColorAnalysis "neon" (1 # 2) = Some sentence /\
     In sentence (default [] (StyleMatcherUi.analyses !! ""))) /\
  StyleMatcherUi.generateColorAnalysis "toString" (1 # 2) = None.
Proof.
  destruct (color_analysis_defined "neon" (1 # 2)) as [Hd _]; [split; lra|].
  destruct (color_analysis_defined "toString" (1 # 2)) as [_ Hu]; [split; lra|].
  split.
  - destruct Hd as (s & Hs & _ & Hd).
    + simpl. intros H. repeat (destruct H as [H|H]; [discriminate H|]). exact H.
    + exists s. split; [exact Hs|]. apply Hd. reflexivity.
  - apply Hu. simpl. tauto.
Defined.

Lemma createCombination_bounds
    (inherited_text : string -> string)
    (m : StyleMatcher.matcher) (index : nat)
    (occasion clothingType colorPreference : string) (d : StyleMatcherUi.draws) :
  fair_draws m d ->
  let c := StyleMatcherUi.createCombination inherited_text m index occasion
             clothingType colorPreference d in
  let n := length (StyleMatcher.uploadedImages m) in
  (StyleMatcherUi.rating c = 4 \/ StyleMatcherUi.rating c = 5) /\
  80 <= StyleMatcherUi.confidence c <= 95 /\
  (Nat.min 2 n <= length (StyleMatcherUi.images c) <= Nat.min 4 n)%nat /\
  (forall img, In img (StyleMatcherUi.images c) ->
               In img (StyleMatcher.uploadedImages m)) /\
  (is_Some (StyleMatcherUi.colorAnalysis c) <->
   ~ In colorPreference StyleMatcherUi.inherited_names).
Proof.
  intros (Hi & Hr & Hc & Ha & _ & Hs) c n. subst c n.
  unfold StyleMatcherUi.createCombination, StyleMatcherUi.getRandomImages,
    StyleMatcherUi.random_below. cbv zeta.
  cbn [StyleMatcherUi.rating StyleMatcherUi.confidence StyleMatcherUi.images
       StyleMatcherUi.colorAnalysis].
  pose proof (Qfloor_scaled_range _ 3 Hi ltac:(lia)) as Hfi.
  pose proof (Qfloor_scaled_range _ 2 Hr ltac:(lia)) as Hfr.
  pose proof (Qfloor_scaled_range _ 16 Hc ltac:(lia)) as Hfc.
  set (fi := Qfloor (StyleMatcherUi.items_draw d * inject_Z 3)) in *. clearbody fi.
  set (fr := Qfloor (StyleMatcherUi.rating_draw d * inject_Z 2)) in *. clearbody fr.
  set (fc := Qfloor (StyleMatcherUi.confidence_draw d * inject_Z 16)) in *. clearbody fc.
  split; [lia|]. split; [lia|]. split; [|split].
  - rewrite length_take, (Permutation_length Hs). lia.
  - intros img Himg. eapply Permutation_in; [exact Hs|].
    apply list_elem_of_In. apply list_elem_of_In in Himg.
    eapply subseteq_take, Himg.
  - split.
    + intros [s Hsome] Hin.
      rewrite (color_analysis_inherited colorPreference _ Hin) in Hsome. discriminate.
    + intros Hn. destruct (color_analysis_total colorPreference _ Ha Hn) as [s ->].
      eexists. reflexivity.
Qed.

(** X25.  [generateAICombinations] makes [min(max(2, n/2), 4)] combinations
    for a list of [n] images, so between two and four even when a single
    image is uploaded, and numbers them from 1.  Each has four or five
    stars, a confidence from 80 to 95, and between [min(2, n)] and
    [min(4, n)] images of the list; its colour analysis is defined exactly
    when the colour preference is not a name inherited from
    [Object.prototype]. *)
Theorem ai_combinations_shape
    (inherited_text : string -> string)
    (m : StyleMatcher.matcher) (occasion clothingType colorPreference : string)
    (chance : nat -> StyleMatcherUi.draws) :
  (forall i, fair_draws m (chance i)) ->
  let cs := StyleMatcherUi.generateAICombinations inherited_text m occasion
              clothingType colorPreference chance in
  let n := length (StyleMatcher.uploadedImages m) in
  length cs = Nat.min (Nat.max 2 (n / 2)) 4 /\
  (2 <= length cs <= 4)%nat /\
  map StyleMatcherUi.comb_id cs = seq 1 (length cs) /\
  Forall (fun c =>
            (StyleMatcherUi.rating c = 4 \/ StyleMatcherUi.rating c = 5) /\
            80 <= StyleMatcherUi.confidence c <= 95 /\
            (Nat.min 2 n <= length (StyleMatcherUi.images c) <= Nat.min 4 n)%nat /\
            (forall img, In img (StyleMatcherUi.images c) ->
                         In img (StyleMatcher.uploadedImages m)) /\
            (is_Some (StyleMatcherUi.colorAnalysis c) <->
             ~ In colorPreference StyleMatcherUi.inherited_names)) cs.
Proof.
  intros Hfair cs n. subst cs n. unfold StyleMatcherUi.generateAICombinations. cbv zeta.
  rewrite length_map, length_seq.
  split; [reflexivity|]. split; [lia|]. split.
  - rewrite map_map. simpl. rewrite <- seq_shift. apply map_ext. intros i. lia.
  - apply Forall_map, Forall_forall. intros i _.
    apply (createCombination_bounds inherited_text m (i + 1) occasion clothingType
             colorPreference (chance i) (Hfair i)).
Qed.

Lemma ai_combinations_shape_witness :
  length (StyleMatcherUi.generateAICombinations chrome_text one_photo_matcher
            "party" "" "" (fun _ => even_draws one_photo_matcher)) = 2%nat.
Proof.
  apply (ai_combinations_shape chrome_text one_photo_matcher "party" "" ""
           (fun _ => even_draws one_photo_matcher)).
  intros _. repeat split; try (simpl; lra). reflexivity.
Defined.

(** The style note for a clothing type that is an inherited name carries
    the text of the inherited member. *)
Example style_notes_of_inherited_type :
  StyleMatcherUi.generateStyleNotes chrome_text "party" "toString" (1 # 2) =
    "Fun and festive look perfect for celebrations. function toString() { [native code] }." /\
  StyleMatcherUi.generateStyleNotes chrome_text "toString" "shirt" (1 # 2) =
    "Stylish combination perfect for your selected occasion. Classic shirt styling adds sophistication.".
Proof. split; vm_compute; reflexivity. Qed.

Lemma matcher_step_only_images (m : StyleMatcher.matcher) (e : StyleMatcher.event) :
  only_images m -> only_images (StyleMatcher.step m e).
Proof.
  intros [Hu Hq]. destruct e as [files|k result now random|imageId]; simpl.
  - unfold StyleMatcher.processFiles. cbv zeta.
    assert (Hf : Forall (fun f => StyleMatcher.is_image f = true)
                   (filter (fun f => StyleMatcher.is_image f = true) files)).
    { apply Forall_forall. intros f Hf. apply list_elem_of_filter in Hf as [Hf _]. exact Hf. }
    revert m Hu Hq Hf.
    induction (filter (fun f => StyleMatcher.is_image f = true) files) as [|f fs IH];
      intros m Hu Hq Hf; simpl; [split; assumption|].
    inversion Hf as [|? ? Hf1 Hf2]; subst.
    destruct (_ <? _)%nat; apply IH; simpl; try assumption.
    apply Forall_app. split; [assumption|]. constructor; [assumption|constructor].
  - unfold StyleMatcher.onload.
    destruct (StyleMatcher.readers m !! k) as [f|] eqn:Ek; [|split; assumption].
    split; simpl.
    + apply Forall_app. split; [exact Hu|]. constructor; [|constructor].
      split; [|reflexivity]. simpl.
      rewrite Forall_forall in Hq. apply Hq. eapply list_elem_of_lookup_2, Ek.
    + apply Forall_delete, Hq.
  - split; simpl; [|exact Hq].
    rewrite Forall_forall in Hu |- *. intros d Hd.
    apply list_elem_of_filter in Hd as [_ Hd]. apply Hu, Hd.
Qed.

(** X26.  Whatever is selected, loaded and removed, every image in the list
    of [AIStyleMatcher] comes from a file of an image type and carries
    that file's name; files of another type never get a reader. *)
Theorem matcher_only_images (es : list StyleMatcher.event) :
  only_images (StyleMatcher.run StyleMatcher.new es).
Proof.
  unfold StyleMatcher.run.
  assert (H : forall m, only_images m -> only_images (foldl StyleMatcher.step m es)).
  { induction es as [|e es IH]; intros m Hm; [exact Hm|].
    simpl. apply IH, matcher_step_only_images, Hm. }
  apply H. split; constructor.
Qed.

(** X27.  Once the list of [AIStyleMatcher] holds 12 images or more and no
    reader is at work, selecting and dropping files changes nothing, and a
    late load event finds no reader: as long as nothing is removed the page
    stays exactly as it is. *)
Theorem full_matcher_stays (m : StyleMatcher.matcher) (es : list StyleMatcher.event) :
  (12 <= length (StyleMatcher.uploadedImages m))%nat ->
  StyleMatcher.readers m = [] ->
  Forall adds es ->
  StyleMatcher.run m es = m.
Proof.
  intros Hm Hr Hes. unfold StyleMatcher.run.
  induction Hes as [|e es He _ IH]; [reflexivity|]. simpl.
  assert (Hstep : StyleMatcher.step m e = m).
  { destruct e as [files|k result now random|imageId]; simpl.
    - unfold StyleMatcher.processFiles. cbv zeta. apply start_readers_at_limit, Hm.
    - unfold StyleMatcher.onload. rewrite Hr. reflexivity.
    - destruct He. }
  rewrite Hstep. exact IH.
Qed.

Lemma full_matcher_stays_witness :
  length (StyleMatcher.uploadedImages
            (StyleMatcher.run full_matcher
               [StyleMatcher.ProcessFiles (replicate 5 photo);
                StyleMatcher.Onload 0 "data:" 1700000000100 0.25%float])) = 12%nat.
Proof.
  rewrite (full_matcher_stays full_matcher
             [StyleMatcher.ProcessFiles (replicate 5 photo);
              StyleMatcher.Onload 0 "data:" 1700000000100 0.25%float]).
  - vm_compute. reflexivity.
  - vm_compute. lia.
  - vm_compute. reflexivity.
  - repeat constructor.
Defined.
